(** * cert-manager webhook for bunny.net DNS: the solver, embedded in Rocq

    The repository holds two revisions of the solver, [src/main.go] and
    [src/unnamed/part_000].  Both are embedded below, each in a module of its
    own ([MainGo] and [Part000]), over one shared model of the Go runtime and
    of the packages the solver calls ([strings], [fmt], [net/http], [io],
    [encoding/json]).

    Conventions of the embedding:
    - a Go [string] is a [String.string] (a sequence of bytes), a Go [int] a
      [Z] (no arithmetic is done on the integers that flow through the solver,
      so no wrap-around arises);
    - a Go [error] is an [option Error], [None] being [nil];
    - a function that returns [(T, error)] returns a pair;
    - a run-time panic is a result of its own, never an [error];
    - HTTP traffic is explicit: every request handed to the client is appended
      to the [sent] log of the state, and the provider answers through an
      oracle over an abstract [World];
    - [log.Printf] and [fmt.Printf] write to the process output only and are
      left out;  [defer resp.Body.Close()] releases a connection and is left
      out, apart from the nil dereference it causes on a nil response. *)

From Stdlib Require Import ZArith List String Ascii DecimalString Lia Bool.
Import ListNotations.
Open Scope string_scope.
Open Scope Z_scope.

(* ================================================================= *)
(** ** Go strings *)

Module GoString.

(** [len(s)] *)
Definition len (s : string) : Z := Z.of_nat (String.length s).

(** [s[i:j]], used below only with [0 <= i <= j <= len(s)]. *)
Definition slice (s : string) (i j : Z) : string :=
  substring (Z.to_nat i) (Z.to_nat (j - i)) s.

(** [strings.HasSuffix]:
    [len(s) >= len(suffix) && s[len(s)-len(suffix):] == suffix]. *)
Definition HasSuffix (s suffix : string) : bool :=
  (len suffix <=? len s) &&
  String.eqb (slice s (len s - len suffix) (len s)) suffix.

(** [strings.TrimSuffix]:
    [if HasSuffix(s, suffix) { return s[:len(s)-len(suffix)] }; return s]. *)
Definition TrimSuffix (s suffix : string) : string :=
  if HasSuffix s suffix then slice s 0 (len s - len suffix) else s.

(** [%d] of [fmt]. *)
Definition itoa (n : Z) : string := NilZero.string_of_int (Z.to_int n).

End GoString.
Export GoString.

(* ================================================================= *)
(** ** Go errors and panics *)

(** A non-nil [error] value: either a plain message ([errors.New],
    [fmt.Errorf] without [%w], an error of a library) or a message that
    wraps a cause ([fmt.Errorf] with [%w]). *)
Inductive Error : Type :=
| errorString (msg : string)
| wrapError (msg : string) (err : Error).

(** The Go type [error]; [None] is [nil]. *)
Definition error : Type := option Error.

(** [err.Error()] *)
Definition Error_msg (e : Error) : string :=
  match e with
  | errorString msg => msg
  | wrapError msg _ => msg
  end.

(** [errors.Unwrap(err)] *)
Definition Unwrap (e : Error) : error :=
  match e with
  | errorString _ => None
  | wrapError _ err => Some err
  end.

(** [fmt.Errorf(msg)] with no verb. *)
Definition fmt_Errorf (msg : string) : error := Some (errorString msg).

(** [fmt.Errorf(context + "%w", err)]: the message is the context followed
    by the message of [err], and [err] stays reachable through [Unwrap]. *)
Definition fmt_Errorf_w (context : string) (err : Error) : error :=
  Some (wrapError (context ++ Error_msg err) err).

(** What a call ends in: a value, or a panic that unwinds the goroutine. *)
Inductive result (A : Type) : Type :=
| Val (a : A)
| Panic (msg : string).
Arguments Val {A} a.
Arguments Panic {A} msg.

Definition nil_dereference : string :=
  "runtime error: invalid memory address or nil pointer dereference".

Definition index_out_of_range (i : Z) : string :=
  "runtime error: index out of range [" ++ itoa i ++ "]".

(* ================================================================= *)
(** ** encoding/json, as far as the solver uses it *)

Module JSON.

Inductive value : Type :=
| Int (n : Z)
| Str (s : string)
| Bool (b : bool).

(** A JSON object: its members in the order they are written. *)
Definition object : Type := list (string * value).

(** One field of a Go struct as [json.Marshal] sees it: the name given by
    its tag, whether the tag says [omitempty], and the field's value. *)
Record field : Type := mkField {
  name : string;
  omitempty : bool;
  val : value
}.

(** [isEmptyValue] of encoding/json on the three kinds in use. *)
Definition isEmptyValue (v : value) : bool :=
  match v with
  | Int n => n =? 0
  | Str s => len s =? 0
  | Bool b => negb b
  end.

Definition written (f : field) : bool :=
  negb (omitempty f && isEmptyValue (val f)).

(** [json.Marshal] of a struct: the fields in declaration order, those
    tagged [omitempty] left out when empty.  On structs of integers,
    strings and booleans it has no error to report. *)
Definition Marshal (fields : list field) : object * error :=
  (map (fun f => (name f, val f)) (filter written fields), None).

(** The member names of an object. *)
Definition keys (o : object) : list string := map fst o.

(** The member of an object under a name, if it has one. *)
Definition member (o : object) (k : string) : option value :=
  option_map snd (find (fun m => String.eqb (fst m) k) o).

(** What [json.Unmarshal] leaves in a field of a zero struct: the member
    under the field's name, or the zero value when the object has none. *)
Definition int_field (o : object) (k : string) : Z :=
  match member o k with Some (Int n) => n | _ => 0 end.

Definition string_field (o : object) (k : string) : string :=
  match member o k with Some (Str s) => s | _ => "" end.

Definition bool_field (o : object) (k : string) : bool :=
  match member o k with Some (Bool b) => b | _ => false end.

End JSON.

(* ================================================================= *)
(** ** Data model *)

(** [v1alpha1.ChallengeRequest] of cert-manager: the three fields the solver
    reads. *)
Record ChallengeRequest : Type := mkChallengeRequest {
  ResolvedFQDN : string;
  ResolvedZone : string;
  Key : string
}.

(** [type Record struct]: the fields common to both revisions; the further
    fields [src/main.go] decodes are read by no function. *)
Record Record : Type := mkRecord {
  Record_ID : Z;
  Record_Type : Z;
  Record_Ttl : Z;
  Record_Value : string;
  Record_Name : string;
  Record_Disabled : bool
}.

(** The record a JSON object denotes: [json.Unmarshal] of the object into a
    zero [Record]. *)
Definition Record_of_object (o : JSON.object) : Record :=
  {| Record_ID := JSON.int_field o "Id";
     Record_Type := JSON.int_field o "Type";
     Record_Ttl := JSON.int_field o "Ttl";
     Record_Value := JSON.string_field o "Value";
     Record_Name := JSON.string_field o "Name";
     Record_Disabled := JSON.bool_field o "Disabled" |}.

(** [type Item struct] *)
Record Item : Type := mkItem {
  Item_ID : Z;
  Item_Domain : string;
  Item_Records : list Record
}.

(** [type ZoneResponse struct] ([Root] in [src/main.go]). *)
Record ZoneResponse : Type := mkZoneResponse {
  Items : list Item;
  CurrentPage : Z;
  TotalItems : Z;
  HasMoreItems : bool
}.

(** [ZoneResponse{}] *)
Definition ZoneResponse_zero : ZoneResponse :=
  {| Items := []; CurrentPage := 0; TotalItems := 0; HasMoreItems := false |}.

Record bunnyNetDNSConfig : Type := mkConfig { APIKey : string }.

(* ================================================================= *)
(** ** net/http and io *)

(** A request; its body, when it has one, is kept as the JSON object that
    [json.Marshal] encoded. *)
Record Request : Type := mkRequest {
  Method : string;
  URL : string;
  Header : list (string * string);
  Body : option JSON.object
}.

(** A response: its status, and what [io.ReadAll(resp.Body)] yields (the
    bytes read, and the error that ended the read, if any). *)
Record Response : Type := mkResponse {
  StatusCode : Z;
  ReadAll : string * error
}.

(** What [Do] of [http.Client] returns: [(resp, nil)] with [resp] non-nil, or
    a non-nil error (with a response only when a redirect check failed). *)
Inductive DoResult : Type :=
| Responded (resp : Response)
| Failed (resp : option Response) (err : Error).

Definition MethodGet : string := "GET".
Definition MethodPut : string := "PUT".

(** [req.Header.Add] and [req.Header.Set] on a key; keys are kept as the
    source writes them. *)
Definition Header_Add (req : Request) (k v : string) : Request :=
  {| Method := Method req; URL := URL req;
     Header := Header req ++ [(k, v)]; Body := Body req |}.

Definition Header_Set (req : Request) (k v : string) : Request :=
  {| Method := Method req; URL := URL req;
     Header := filter (fun kv => negb (String.eqb (fst kv) k)) (Header req)
               ++ [(k, v)];
     Body := Body req |}.

(** The surroundings of the process: the [API_KEY] environment variable,
    read once into the global [ApiKey], and the network with the provider
    behind it.  [NewRequest_error] is the error [http.NewRequest] reports
    for a method and a URL (a URL that does not parse, say);
    [json_Unmarshal body] is what [json.Unmarshal(body, &data)] leaves in a
    zero [data], with the error it returns. *)
Class Env : Type := mkEnv {
  ApiKey : string;
  World : Type;
  NewRequest_error : string -> string -> error;
  Do : Request -> World -> DoResult * World;
  json_Unmarshal : string -> ZoneResponse * error
}.

(** [http.NewRequest(method, url, body)] *)
Definition http_NewRequest `{Env} (method url : string)
    (body : option JSON.object) : option Request * error :=
  match NewRequest_error method url with
  | Some e => (None, Some e)
  | None => (Some {| Method := method; URL := url; Header := []; Body := body |},
             None)
  end.

(* ================================================================= *)
(** ** The monad of a call: network state, request log, panics *)

Section Monad.
Context `{Env}.

Record State : Type := mkState {
  world : World;
  sent : list Request
}.

Definition M (A : Type) : Type := State -> result A * State.

Definition ret {A} (a : A) : M A := fun st => (Val a, st).

Definition bind {A B} (m : M A) (k : A -> M B) : M B :=
  fun st =>
    match m st with
    | (Val a, st') => k a st'
    | (Panic msg, st') => (Panic msg, st')
    end.

Definition panic {A} (msg : string) : M A := fun st => (Panic msg, st).

(** Dereference of a pointer. *)
Definition deref {A} (p : option A) : M A :=
  match p with
  | Some a => ret a
  | None => panic nil_dereference
  end.

(** [s[i]] on a string. *)
Definition string_at (s : string) (i : Z) : M ascii :=
  if (0 <=? i) && (i <? len s) then
    match String.get (Z.to_nat i) s with
    | Some c => ret c
    | None => panic (index_out_of_range i)
    end
  else panic (index_out_of_range i).

(** [len(l)] on a slice. *)
Definition len_list {A} (l : list A) : Z := Z.of_nat (List.length l).

(** [l[0]] on a slice. *)
Definition first {A} (l : list A) : M A :=
  match l with
  | a :: _ => ret a
  | [] => panic (index_out_of_range 0 ++ " with length 0")
  end.

(** [client.Do(req)]: the request goes out and is logged; the provider's
    oracle answers. *)
Definition client_Do (req : Request) : M (option Response * error) :=
  fun st =>
    let (r, w) := Do req (world st) in
    let st' := {| world := w; sent := sent st ++ [req] |} in
    match r with
    | Responded resp => (Val (Some resp, None), st')
    | Failed resp err => (Val (resp, Some err), st')
    end.

End Monad.

Declare Scope go_scope.
Delimit Scope go_scope with go.
Notation "x <- m ;; k" := (bind m (fun x => k))
  (at level 100, m at next level, right associativity) : go_scope.
Notation "' p <- m ;; k" := (bind m (fun x => let 'p := x in k))
  (at level 100, p pattern, m at next level, right associativity) : go_scope.
(** [if err != nil { return r }] followed by the rest of the body. *)
Notation "'iferr' e := err 'return' r ;; k" :=
  (match err with Some e => ret r | None => k end)
  (at level 100, e name, err at next level, r at next level,
   right associativity) : go_scope.
Open Scope go_scope.

(* ================================================================= *)
(** ** The matching loop of CleanUp, the same in both revisions *)

(** [record.Type == 3 && record.Name == hostname && record.Value == ch.Key] *)
Definition matches (hostname key : string) (record : Record) : bool :=
  (Record_Type record =? 3)
  && String.eqb (Record_Name record) hostname
  && String.eqb (Record_Value record) key.

(** [for _, record := range records { if ... { recordID = record.ID; break } }]
    run from a given value of [recordID]. *)
Fixpoint range_records (records : list Record) (hostname key : string)
    (recordID : Z) : Z :=
  match records with
  | [] => recordID
  | record :: rest =>
      if matches hostname key record then Record_ID record
      else range_records rest hostname key recordID
  end.

(* ================================================================= *)
(** ** src/unnamed/part_000 *)

Module Part000.
Section Solver.
Context `{Env}.

Definition bunnyAPIBase : string := "https://api.bunny.net".
Definition recordTTL : Z := 10.
Definition recordType : Z := 3.
Definition errMissingAPIKey : string := "API_KEY must be specified".

(** The struct tags of [Record]: every field is [omitempty]. *)
Definition Record_fields (r : Record) : list JSON.field :=
  [ JSON.mkField "Id" true (JSON.Int (Record_ID r));
    JSON.mkField "Type" true (JSON.Int (Record_Type r));
    JSON.mkField "Ttl" true (JSON.Int (Record_Ttl r));
    JSON.mkField "Value" true (JSON.Str (Record_Value r));
    JSON.mkField "Name" true (JSON.Str (Record_Name r));
    JSON.mkField "Disabled" true (JSON.Bool (Record_Disabled r)) ].

Definition loadConfig : M (bunnyNetDNSConfig * error) :=
  if String.eqb ApiKey "" then panic errMissingAPIKey
  else
    let cfg := {| APIKey := ApiKey |} in
    ret (cfg, None).

Definition GetZone (zone : string) (cfg : bunnyNetDNSConfig)
    : M (ZoneResponse * error) :=
  c <- string_at zone (len zone - 1) ;;
  let zone := if Ascii.eqb c "." then slice zone 0 (len zone - 1) else zone in
  let url := bunnyAPIBase ++ "/dnszone?page=1&perPage=1&search=" ++ zone in
  let '(req, err) := http_NewRequest MethodGet url None in
  iferr e := err return
    (ZoneResponse_zero, fmt_Errorf_w "failed to create request: " e) ;;
  req <- deref req ;;
  let req := Header_Add req "Accept" "application/json" in
  let req := Header_Add req "AccessKey" (APIKey cfg) in
  '(res, err) <- client_Do req ;;
  iferr e := err return
    (ZoneResponse_zero, fmt_Errorf_w "failed to execute request: " e) ;;
  res <- deref res ;;
  let '(body, err) := ReadAll res in
  iferr e := err return
    (ZoneResponse_zero, fmt_Errorf_w "failed to read response body: " e) ;;
  let '(data, err) := json_Unmarshal body in
  iferr e := err return
    (ZoneResponse_zero, fmt_Errorf_w "failed to unmarshal response: " e) ;;
  if len_list (Items data) =? 0 then
    ret (ZoneResponse_zero, fmt_Errorf ("no DNS zone found for " ++ zone))
  else
    ret (data, None).

Definition GetZoneID (zone : string) (cfg : bunnyNetDNSConfig)
    : M (Z * error) :=
  '(data, err) <- GetZone zone cfg ;;
  iferr e := err return (0, Some e) ;;
  item <- first (Items data) ;;
  ret (Item_ID item, None).

Definition Present (ch : option ChallengeRequest) : M error :=
  match ch with
  | None => ret (fmt_Errorf "challenge request cannot be nil")
  | Some ch =>
    '(cfg, err) <- loadConfig ;;
    iferr e := err return fmt_Errorf_w "failed to load config: " e ;;
    '(zoneID, err) <- GetZoneID (ResolvedZone ch) cfg ;;
    iferr e := err return fmt_Errorf_w "failed to get zone ID: " e ;;
    let url := bunnyAPIBase ++ "/dnszone/" ++ itoa zoneID ++ "/records" in
    let hostname := TrimSuffix (ResolvedFQDN ch) (ResolvedZone ch) in
    let hostname := TrimSuffix hostname "." in
    let record :=
      {| Record_ID := 0;
         Record_Type := recordType;
         Record_Ttl := recordTTL;
         Record_Value := Key ch;
         Record_Name := hostname;
         Record_Disabled := false |} in
    let '(payload, err) := JSON.Marshal (Record_fields record) in
    iferr e := err return fmt_Errorf_w "failed to marshal record: " e ;;
    let '(req, err) := http_NewRequest MethodPut url (Some payload) in
    iferr e := err return fmt_Errorf_w "failed to create request: " e ;;
    req <- deref req ;;
    let req := Header_Set req "Accept" "application/json" in
    let req := Header_Set req "Content-Type" "application/json" in
    let req := Header_Set req "AccessKey" ApiKey in
    '(resp, err) <- client_Do req ;;
    iferr e := err return fmt_Errorf_w "failed to send request: " e ;;
    resp <- deref resp ;;
    let '(body, err) := ReadAll resp in
    iferr e := err return fmt_Errorf_w "failed to read response: " e ;;
    if 400 <=? StatusCode resp then
      ret (fmt_Errorf ("API request failed with status "
                       ++ itoa (StatusCode resp) ++ ": " ++ body))
    else
      ret None
  end.

Definition CleanUp (ch : option ChallengeRequest) : M error :=
  '(cfg, err) <- loadConfig ;;
  iferr e := err return Some e ;;
  ch <- deref ch ;;
  '(zoneData, err) <- GetZone (ResolvedZone ch) cfg ;;
  iferr e := err return fmt_Errorf_w "failed to get zone ID: " e ;;
  let recordID := 0 in
  let hostname :=
    TrimSuffix (TrimSuffix (ResolvedFQDN ch) (ResolvedZone ch)) "." in
  item <- first (Items zoneData) ;;
  let recordID := range_records (Item_Records item) hostname (Key ch) recordID in
  if recordID =? 0 then ret None
  else
    item <- first (Items zoneData) ;;
    let url := bunnyAPIBase ++ "/dnszone/" ++ itoa (Item_ID item)
               ++ "/records/" ++ itoa recordID in
    let '(req, err) := http_NewRequest "DELETE" url None in
    iferr e := err return Some e ;;
    req <- deref req ;;
    let req := Header_Add req "accept" "application/json" in
    let req := Header_Add req "AccessKey" (APIKey cfg) in
    '(_, err) <- client_Do req ;;
    ret err.

(** [Initialize] does nothing and succeeds. *)
Definition Initialize : M error := ret None.

Definition Name : string := "bunny-net".

End Solver.
End Part000.

(* ================================================================= *)
(** ** src/main.go *)

Module MainGo.
Section Solver.
Context `{Env}.

Definition bunnyAPIBase : string := "https://api.bunny.net".
Definition recordTTL : Z := 10.
Definition recordType : Z := 3.

(** The anonymous struct that [Present] marshals. *)
Record PresentRecord : Type := mkPresentRecord {
  Type_ : Z;
  TTL : Z;
  Value : string;
  Name_ : string;
  Disabled : bool
}.

(** Its struct tags: five names, none [omitempty]. *)
Definition PresentRecord_fields (r : PresentRecord) : list JSON.field :=
  [ JSON.mkField "Type" false (JSON.Int (Type_ r));
    JSON.mkField "Ttl" false (JSON.Int (TTL r));
    JSON.mkField "Value" false (JSON.Str (Value r));
    JSON.mkField "Name" false (JSON.Str (Name_ r));
    JSON.mkField "Disabled" false (JSON.Bool (Disabled r)) ].

Definition loadConfig : M (bunnyNetDNSConfig * error) :=
  if String.eqb ApiKey "" then panic "API_KEY must be specified"
  else
    let cfg := {| APIKey := ApiKey |} in
    ret (cfg, None).

(** Every error of the fetch is dropped ([req, _ :=], [res, _ :=],
    [body, _ :=], the result of [json.Unmarshal] unused); the function
    returns [nil] whenever it returns. *)
Definition GetZone (zone : string) (cfg : bunnyNetDNSConfig)
    : M (ZoneResponse * error) :=
  c <- string_at zone (len zone - 1) ;;
  let zone := if Ascii.eqb c "." then slice zone 0 (len zone - 1) else zone in
  let url := "https://api.bunny.net/dnszone?page=1&perPage=1&search=" ++ zone in
  let '(req, _) := http_NewRequest "GET" url None in
  req <- deref req ;;
  let req := Header_Add req "accept" "application/json" in
  let req := Header_Add req "AccessKey" (APIKey cfg) in
  '(res, _) <- client_Do req ;;
  res <- deref res ;;
  let '(body, _) := ReadAll res in
  let '(data, _) := json_Unmarshal body in
  ret (data, None).

Definition GetZoneID (zone : string) (cfg : bunnyNetDNSConfig)
    : M (Z * error) :=
  '(data, err) <- GetZone zone cfg ;;
  iferr e := err return (0, Some e) ;;
  item <- first (Items data) ;;
  ret (Item_ID item, None).

Definition Present (ch : option ChallengeRequest) : M error :=
  '(cfg, err) <- loadConfig ;;
  iferr e := err return fmt_Errorf_w "failed to load config: " e ;;
  ch <- deref ch ;;
  '(zoneID, err) <- GetZoneID (ResolvedZone ch) cfg ;;
  iferr e := err return fmt_Errorf_w "failed to get zone ID: " e ;;
  let url := bunnyAPIBase ++ "/dnszone/" ++ itoa zoneID ++ "/records" in
  let hostname := TrimSuffix (ResolvedFQDN ch) (ResolvedZone ch) in
  let hostname := TrimSuffix hostname "." in
  let record :=
    {| Type_ := recordType;
       TTL := recordTTL;
       Value := Key ch;
       Name_ := hostname;
       Disabled := false |} in
  let '(payload, err) := JSON.Marshal (PresentRecord_fields record) in
  iferr e := err return fmt_Errorf_w "failed to marshal record: " e ;;
  let '(req, err) := http_NewRequest MethodPut url (Some payload) in
  iferr e := err return fmt_Errorf_w "failed to create request: " e ;;
  req <- deref req ;;
  let req := Header_Set req "Accept" "application/json" in
  let req := Header_Set req "Content-Type" "application/json" in
  let req := Header_Set req "AccessKey" ApiKey in
  '(resp, err) <- client_Do req ;;
  iferr e := err return fmt_Errorf_w "failed to send request: " e ;;
  resp <- deref resp ;;
  let '(body, err) := ReadAll resp in
  iferr e := err return fmt_Errorf_w "failed to read response: " e ;;
  if 400 <=? StatusCode resp then
    ret (fmt_Errorf ("API request failed with status "
                     ++ itoa (StatusCode resp) ++ ": " ++ body))
  else
    ret None.

Definition CleanUp (ch : option ChallengeRequest) : M error :=
  '(cfg, err) <- loadConfig ;;
  iferr e := err return Some e ;;
  ch <- deref ch ;;
  '(zoneData, err) <- GetZone (ResolvedZone ch) cfg ;;
  iferr e := err return fmt_Errorf_w "failed to get zone ID: " e ;;
  let recordID := 0 in
  let hostname :=
    TrimSuffix (TrimSuffix (ResolvedFQDN ch) (ResolvedZone ch)) "." in
  item <- first (Items zoneData) ;;
  let recordID := range_records (Item_Records item) hostname (Key ch) recordID in
  if recordID =? 0 then ret None
  else
    item <- first (Items zoneData) ;;
    let url := bunnyAPIBase ++ "/dnszone/" ++ itoa (Item_ID item)
               ++ "/records/" ++ itoa recordID in
    let '(req, err) := http_NewRequest "DELETE" url None in
    iferr e := err return Some e ;;
    req <- deref req ;;
    let req := Header_Add req "accept" "application/json" in
    let req := Header_Add req "AccessKey" (APIKey cfg) in
    '(_, err) <- client_Do req ;;
    ret err.

Definition Initialize : M error := ret None.

Definition Name : string := "bunny-net".

End Solver.
End MainGo.

(* ================================================================= *)
(** ** What the claims speak of *)

(** The relative hostname both revisions compute, in [Present] and in
    [CleanUp]: [TrimSuffix(TrimSuffix(fqdn, zone), ".")]. *)
Definition hostname (fqdn zone : string) : string :=
  TrimSuffix (TrimSuffix fqdn zone) ".".

Definition hostname_of (ch : ChallengeRequest) : string :=
  hostname (ResolvedFQDN ch) (ResolvedZone ch).

(** The requests that change the zone: record creation and deletion. *)
Definition mutating (req : Request) : bool :=
  String.eqb (Method req) "PUT" || String.eqb (Method req) "DELETE".

Definition is_delete (req : Request) : bool := String.eqb (Method req) "DELETE".

(** The requests a run has added to the log. *)
Definition issued `{Env} {A} (m : M A) (st : State) : list Request :=
  skipn (List.length (sent st)) (sent (snd (m st))).

(** The DELETE request for a record of a zone, as [CleanUp] builds it. *)
Definition delete_request (apiKey : string) (zoneID recordID : Z) : Request :=
  {| Method := "DELETE";
     URL := "https://api.bunny.net" ++ "/dnszone/" ++ itoa zoneID
            ++ "/records/" ++ itoa recordID;
     Header := [("accept", "application/json"); ("AccessKey", apiKey)];
     Body := None |}.

(** The search term as the specification words it: the zone name with
    exactly one trailing dot removed, or the name itself when it ends in
    none.  [string_at_last] below shows that the test of the last byte and
    the slice in [GetZone] compute it on every non-empty name. *)
Definition search_term (zone : string) : string :=
  TrimSuffix zone ".".

Definition search_url (term : string) : string :=
  "https://api.bunny.net/dnszone?page=1&perPage=1&search=" ++ term.

(** The search request of the zone lookup; the two revisions differ in how
    they spell the [Accept] header. *)
Definition search_request (accept apiKey term : string) : Request :=
  {| Method := "GET";
     URL := search_url term;
     Header := [(accept, "application/json"); ("AccessKey", apiKey)];
     Body := None |}.

(** The PUT request of [Present] for a zone and a payload. *)
Definition create_request (apiKey : string) (zoneID : Z)
    (payload : JSON.object) : Request :=
  {| Method := "PUT";
     URL := "https://api.bunny.net" ++ "/dnszone/" ++ itoa zoneID ++ "/records";
     Header := [("Accept", "application/json");
                ("Content-Type", "application/json");
                ("AccessKey", apiKey)];
     Body := Some payload |}.

(** The provider answers the search for [zone] with a body that reads and
    decodes without error into [data]; [st'] is the state after the
    exchange. *)
Definition zone_search `{Env} (accept zone : string) (st : State)
    (data : ZoneResponse) (st' : State) : Prop :=
  zone <> "" /\
  NewRequest_error "GET" (search_url (search_term zone)) = None /\
  exists resp w body,
    Do (search_request accept ApiKey (search_term zone)) (world st)
      = (Responded resp, w) /\
    ReadAll resp = (body, None) /\
    json_Unmarshal body = (data, None) /\
    st' = {| world := w;
             sent := sent st
                     ++ [search_request accept ApiKey (search_term zone)] |}.

(** The error [CleanUp] returns once the DELETE went out: that of the
    transport, whatever the status of the answer. *)
Definition error_of (r : DoResult) : error :=
  match r with
  | Responded _ => None
  | Failed _ e => Some e
  end.

(** The two revisions side by side. *)
Inductive Revision : Type := main_go | part_000.

Definition GetZone `{Env} (rev : Revision)
    : string -> bunnyNetDNSConfig -> M (ZoneResponse * error) :=
  match rev with
  | main_go => MainGo.GetZone
  | part_000 => Part000.GetZone
  end.

Definition Present `{Env} (rev : Revision) : option ChallengeRequest -> M error :=
  match rev with
  | main_go => MainGo.Present
  | part_000 => Part000.Present
  end.

Definition CleanUp `{Env} (rev : Revision) : option ChallengeRequest -> M error :=
  match rev with
  | main_go => MainGo.CleanUp
  | part_000 => Part000.CleanUp
  end.

(** How each revision spells the [Accept] header of the search. *)
Definition accept (rev : Revision) : string :=
  match rev with
  | main_go => "accept"
  | part_000 => "Accept"
  end.

(** The configuration [loadConfig] returns. *)
Definition config `{Env} : bunnyNetDNSConfig := {| APIKey := ApiKey |}.

(** The body [Present] marshals for a request, in each revision. *)
Definition payload (rev : Revision) (ch : ChallengeRequest) : JSON.object :=
  match rev with
  | main_go =>
      fst (JSON.Marshal
             (MainGo.PresentRecord_fields
                {| MainGo.Type_ := 3;
                   MainGo.TTL := 10;
                   MainGo.Value := Key ch;
                   MainGo.Name_ := hostname_of ch;
                   MainGo.Disabled := false |}))
  | part_000 =>
      fst (JSON.Marshal
             (Part000.Record_fields
                {| Record_ID := 0;
                   Record_Type := 3;
                   Record_Ttl := 10;
                   Record_Value := Key ch;
                   Record_Name := hostname_of ch;
                   Record_Disabled := false |}))
  end.

(* ================================================================= *)
(** ** Concrete surroundings, for running the solver *)

Module Scenario.

(** A network whose provider answers from a script, one answer per
    request, and refuses the connection once the script is used up. *)
Definition scripted (apiKey : string)
    (decode : string -> ZoneResponse * error) : Env :=
  {| ApiKey := apiKey;
     World := list DoResult;
     NewRequest_error := fun _ _ => None;
     Do := fun _ w =>
             match w with
             | r :: w' => (r, w')
             | [] => (Failed None (errorString "connection refused"), [])
             end;
     json_Unmarshal := decode |}.

(** A provider that gives the same answer to every request and keeps no
    state. *)
Definition constant (apiKey : string) (answer : DoResult)
    (decode : string -> ZoneResponse * error) : Env :=
  {| ApiKey := apiKey;
     World := unit;
     NewRequest_error := fun _ _ => None;
     Do := fun _ w => (answer, w);
     json_Unmarshal := decode |}.

Definition syntax_error : Error :=
  errorString "invalid character 'o' in literal null (expecting 'u')".

Definition tok1 : Record :=
  {| Record_ID := 101; Record_Type := 3; Record_Ttl := 10;
     Record_Value := "tok1"; Record_Name := "_acme-challenge";
     Record_Disabled := false |}.

Definition tok2 : Record :=
  {| Record_ID := 102; Record_Type := 3; Record_Ttl := 10;
     Record_Value := "tok2"; Record_Name := "_acme-challenge";
     Record_Disabled := false |}.

(** A matching record whose identifier is 0. *)
Definition tok0 : Record :=
  {| Record_ID := 0; Record_Type := 3; Record_Ttl := 10;
     Record_Value := "tok2"; Record_Name := "_acme-challenge";
     Record_Disabled := false |}.

Definition www : Record :=
  {| Record_ID := 7; Record_Type := 0; Record_Ttl := 300;
     Record_Value := "192.0.2.1"; Record_Name := "www";
     Record_Disabled := false |}.

Definition zone_of (records : list Record) : ZoneResponse :=
  {| Items := [ {| Item_ID := 42; Item_Domain := "example.com";
                   Item_Records := records |} ];
     CurrentPage := 1; TotalItems := 1; HasMoreItems := false |}.

Definition no_zone : ZoneResponse :=
  {| Items := []; CurrentPage := 1; TotalItems := 0; HasMoreItems := false |}.

(** Bodies are named rather than spelled out; [decode] maps each name to
    the value [json.Unmarshal] decodes it to. *)
Definition decode (body : string) : ZoneResponse * error :=
  if String.eqb body "zone:tok1,tok2" then (zone_of [www; tok1; tok2], None)
  else if String.eqb body "zone:tok1" then (zone_of [www; tok1], None)
  else if String.eqb body "zone:tok0,tok2" then (zone_of [tok0; tok2], None)
  else if String.eqb body "zone:none" then (no_zone, None)
  else (ZoneResponse_zero, Some syntax_error).

Definition ok (body : string) : DoResult :=
  Responded {| StatusCode := 200; ReadAll := (body, None) |}.

Definition unexpected_EOF : Error := errorString "unexpected EOF".
Definition timeout : Error :=
  errorString "context deadline exceeded (Client.Timeout exceeded while awaiting headers)".

Definition cut_short (body : string) : DoResult :=
  Responded {| StatusCode := 200; ReadAll := (body, Some unexpected_EOF) |}.

(** Scenario A of the specification. *)
Definition requestA : ChallengeRequest :=
  {| ResolvedFQDN := "_acme-challenge.example.com.";
     ResolvedZone := "example.com.";
     Key := "tok1" |}.

Definition requestC : ChallengeRequest :=
  {| ResolvedFQDN := "_acme-challenge.example.com.";
     ResolvedZone := "example.com.";
     Key := "tok2" |}.

Definition start `{Env} (w : World) : State := {| world := w; sent := [] |}.

(** The scripted provider with API key "secret". *)
Definition provider : Env := scripted "secret" decode.

(** The stateless provider that always answers with one body. *)
Definition steady (body : string) : Env := constant "secret" (ok body) decode.

(** The search both scenarios begin with, in each revision. *)
Definition searched (rev : Revision) : Request :=
  search_request (accept rev) "secret" "example.com".

End Scenario.

(* ================================================================= *)
(** ** Further surroundings: no API key, a provider that fails *)

Module Coverage.

(** The scripted provider in a process without API key. *)
Definition keyless : Env := Scenario.scripted "" Scenario.decode.

(** Scenario D of the specification: the create call is answered with
    status 500. *)
Definition internal_error : DoResult :=
  Responded {| StatusCode := 500; ReadAll := ("{Message:internal}", None) |}.

Definition zone_body : string := "zone:tok1,tok2".

(** The state of the scripted provider after the search of either
    scenario, with the rest of the script still to play. *)
Definition after_search (rev : Revision) (script : list DoResult)
    : @State Scenario.provider :=
  @mkState Scenario.provider script [Scenario.searched rev].

(** The create request of scenario A in each revision. *)
Definition createdA (rev : Revision) : Request :=
  create_request "secret" 42 (payload rev Scenario.requestA).

End Coverage.

(* ================================================================= *)
(** * Facts *)

Open Scope list_scope.

(** ** Strings *)

Module GoStringFacts.

Lemma substring_prefix (p z : string) :
  substring 0 (String.length p) (p ++ z) = p.
Proof.
  induction p as [|c p IH]; simpl.
  - destruct z; reflexivity.
  - now rewrite IH.
Qed.

Lemma substring_all (z : string) : substring 0 (String.length z) z = z.
Proof. induction z as [|c z IH]; simpl; [reflexivity | now rewrite IH]. Qed.

Lemma substring_suffix (p z : string) :
  substring (String.length p) (String.length z) (p ++ z) = z.
Proof.
  induction p as [|c p IH]; simpl.
  - apply substring_all.
  - exact IH.
Qed.

Lemma length_app (p z : string) :
  String.length (p ++ z) = (String.length p + String.length z)%nat.
Proof. induction p as [|c p IH]; simpl; [reflexivity | now rewrite IH]. Qed.

(** Any string splits at any position inside it. *)
Lemma substring_split (s : string) (n : nat) :
  (n <= String.length s)%nat ->
  s = (substring 0 n s ++ substring n (String.length s - n) s)%string.
Proof.
  revert n; induction s as [|c s IH]; intros n Hn; simpl in *.
  - destruct n; [reflexivity | lia].
  - destruct n as [|n]; simpl.
    + now rewrite substring_all.
    + rewrite <- IH by lia. reflexivity.
Qed.

(** [HasSuffix] decides "is a suffix" in the sense of concatenation. *)
Lemma HasSuffix_app (p z : string) : HasSuffix (p ++ z) z = true.
Proof.
  unfold HasSuffix, slice, len.
  rewrite length_app.
  apply andb_true_intro; split.
  - apply Z.leb_le. lia.
  - apply String.eqb_eq.
    replace (Z.to_nat (Z.of_nat (String.length p + String.length z)
                       - Z.of_nat (String.length z))) with (String.length p) by lia.
    replace (Z.to_nat (Z.of_nat (String.length p + String.length z)
                       - (Z.of_nat (String.length p + String.length z)
                          - Z.of_nat (String.length z))))
      with (String.length z) by lia.
    apply substring_suffix.
Qed.

Lemma HasSuffix_inv (s z : string) :
  HasSuffix s z = true -> exists p, s = (p ++ z)%string.
Proof.
  unfold HasSuffix, slice, len.
  intros H. apply andb_prop in H as [Hl He].
  apply Z.leb_le in Hl. apply String.eqb_eq in He.
  remember (String.length s - String.length z)%nat as n eqn:Hn.
  assert (He' : substring n (String.length s - n) s = z).
  { etransitivity; [|exact He]. f_equal; lia. }
  exists (substring 0 n s). rewrite <- He' at 1.
  apply substring_split. lia.
Qed.

(** The two equations that characterise [TrimSuffix]. *)
Lemma TrimSuffix_app (p z : string) : TrimSuffix (p ++ z) z = p.
Proof.
  unfold TrimSuffix. rewrite HasSuffix_app.
  unfold slice, len. rewrite length_app.
  replace (Z.to_nat (Z.of_nat (String.length p + String.length z)
                     - Z.of_nat (String.length z) - 0))
    with (String.length p) by lia.
  apply substring_prefix.
Qed.

Lemma TrimSuffix_not_suffix (s z : string) :
  (forall p, s <> (p ++ z)%string) -> TrimSuffix s z = s.
Proof.
  intros H. unfold TrimSuffix.
  destruct (HasSuffix s z) eqn:E; [|reflexivity].
  apply HasSuffix_inv in E as [p ->]. now destruct (H p).
Qed.

Lemma not_suffix (s z : string) :
  HasSuffix s z = false -> forall p, s <> (p ++ z)%string.
Proof.
  intros E p ->. rewrite HasSuffix_app in E. discriminate.
Qed.

Lemma get_in_range (s : string) (n : nat) :
  (n < String.length s)%nat -> exists c, String.get n s = Some c.
Proof.
  revert n; induction s as [|a s IH]; simpl; intros n Hn; [lia|].
  destruct n as [|n]; [now exists a|]. apply IH. lia.
Qed.

Lemma substring_last (s : string) (c : ascii) :
  String.get (String.length s - 1) s = Some c ->
  substring (String.length s - 1) 1 s = String c "".
Proof.
  induction s as [|a s IH]; simpl; [discriminate|].
  rewrite Nat.sub_0_r.
  destruct s as [|b s']; simpl in *.
  - now intros [= ->].
  - rewrite Nat.sub_0_r in IH. exact IH.
Qed.

(** Testing the last byte and slicing it off, as the zone lookup does, is
    [TrimSuffix] by a dot. *)
Lemma last_byte_TrimSuffix (zone : string) (c : ascii) :
  String.get (String.length zone - 1) zone = Some c ->
  (if Ascii.eqb c "." then slice zone 0 (len zone - 1) else zone)
  = TrimSuffix zone ".".
Proof.
  intros G.
  assert (Hl : (0 < String.length zone)%nat).
  { destruct zone; simpl in *; [discriminate | lia]. }
  unfold TrimSuffix, HasSuffix, slice, len.
  change (Z.of_nat (String.length ".")) with 1.
  replace (1 <=? Z.of_nat (String.length zone)) with true
    by (symmetry; apply Z.leb_le; lia).
  replace (Z.to_nat (Z.of_nat (String.length zone) - 1))
    with (String.length zone - 1)%nat by lia.
  replace (Z.to_nat (Z.of_nat (String.length zone)
                     - (Z.of_nat (String.length zone) - 1)))
    with 1%nat by lia.
  rewrite (substring_last _ _ G). simpl.
  destruct (Ascii.eqb c "."); reflexivity.
Qed.

End GoStringFacts.
Import GoStringFacts.

(** ** The runtime *)

Section RuntimeFacts.
Context `{Env}.

Lemma string_at_last (zone : string) (st : State) :
  zone <> "" ->
  exists c,
    string_at zone (len zone - 1) st = (Val c, st) /\
    (if Ascii.eqb c "." then slice zone 0 (len zone - 1) else zone)
    = search_term zone.
Proof.
  intros Hz.
  assert (Hl : (0 < String.length zone)%nat).
  { destruct zone; simpl; [congruence | lia]. }
  destruct (get_in_range zone (String.length zone - 1)) as [c G]; [lia|].
  exists c. split.
  - unfold string_at, len.
    replace ((0 <=? Z.of_nat (String.length zone) - 1)
             && (Z.of_nat (String.length zone) - 1
                 <? Z.of_nat (String.length zone))) with true.
    + replace (Z.to_nat (Z.of_nat (String.length zone) - 1))
        with (String.length zone - 1)%nat by lia.
      now rewrite G.
    + symmetry. apply andb_true_intro. split;
        [apply Z.leb_le | apply Z.ltb_lt]; lia.
  - now apply last_byte_TrimSuffix.
Qed.

Lemma issued_app {A} (m : M A) (st : State) (l : list Request) :
  sent (snd (m st)) = (sent st ++ l)%list -> issued m st = l.
Proof.
  unfold issued. intros ->.
  rewrite skipn_app, skipn_all, Nat.sub_diag. reflexivity.
Qed.

Lemma range_records_find (records : list Record) (h k : string) (d : Z) :
  range_records records h k d =
  match find (matches h k) records with
  | Some r => Record_ID r
  | None => d
  end.
Proof.
  induction records as [|r rs IH]; simpl; [reflexivity|].
  destruct (matches h k r); [reflexivity | exact IH].
Qed.

Lemma matches_spec (h k : string) (r : Record) :
  matches h k r = true <->
  Record_Type r = 3 /\ Record_Name r = h /\ Record_Value r = k.
Proof.
  unfold matches. rewrite !andb_true_iff, Z.eqb_eq, !String.eqb_eq. tauto.
Qed.

End RuntimeFacts.

(** ** The zone lookup, case by case *)

Section LookupFacts.
Context `{Env}.

(** What [GetZone] of [src/unnamed/part_000] does on a non-empty name,
    one line per way the fetch can go. *)
Lemma Part000_GetZone_run (zone : string) (cfg : bunnyNetDNSConfig)
    (st : State) :
  zone <> "" ->
  Part000.GetZone zone cfg st =
  match NewRequest_error "GET" (search_url (search_term zone)) with
  | Some e =>
      (Val (ZoneResponse_zero, fmt_Errorf_w "failed to create request: " e), st)
  | None =>
      let req := search_request "Accept" (APIKey cfg) (search_term zone) in
      let st' := {| world := snd (Do req (world st));
                    sent := sent st ++ [req] |} in
      match fst (Do req (world st)) with
      | Failed _ e =>
          (Val (ZoneResponse_zero,
                fmt_Errorf_w "failed to execute request: " e), st')
      | Responded resp =>
          match ReadAll resp with
          | (_, Some e) =>
              (Val (ZoneResponse_zero,
                    fmt_Errorf_w "failed to read response body: " e), st')
          | (body, None) =>
              match json_Unmarshal body with
              | (_, Some e) =>
                  (Val (ZoneResponse_zero,
                        fmt_Errorf_w "failed to unmarshal response: " e), st')
              | (data, None) =>
                  if len_list (Items data) =? 0 then
                    (Val (ZoneResponse_zero,
                          fmt_Errorf ("no DNS zone found for "
                                      ++ search_term zone)), st')
                  else (Val (data, None), st')
              end
          end
      end
  end.
Proof.
  intros Hz.
  destruct (string_at_last zone st Hz) as (c & Hc & Hterm).
  unfold Part000.GetZone, bind. rewrite Hc. cbv zeta. rewrite Hterm.
  change (Part000.bunnyAPIBase ++ "/dnszone?page=1&perPage=1&search="
          ++ search_term zone)%string with (search_url (search_term zone)).
  unfold http_NewRequest, MethodGet.
  destruct (NewRequest_error "GET" (search_url (search_term zone)));
    [reflexivity|].
  unfold deref, ret, client_Do, Header_Add; cbn [Method URL Header Body app].
  change (mkRequest "GET" (search_url (search_term zone))
            [("Accept", "application/json"); ("AccessKey", APIKey cfg)] None)
    with (search_request "Accept" (APIKey cfg) (search_term zone)).
  destruct (Do _ (world st)) as [[resp | resp e] w]; cbn [fst snd];
    [|reflexivity].
  destruct (ReadAll resp) as [body [e|]]; [reflexivity|].
  destruct (json_Unmarshal body) as [data [e|]]; [reflexivity|].
  destruct (len_list (Items data) =? 0); reflexivity.
Qed.

(** [GetZone] of [src/main.go] on a non-empty name. *)
Lemma MainGo_GetZone_run (zone : string) (cfg : bunnyNetDNSConfig)
    (st : State) :
  zone <> "" ->
  MainGo.GetZone zone cfg st =
  match NewRequest_error "GET" (search_url (search_term zone)) with
  | Some _ => (Panic nil_dereference, st)
  | None =>
      let req := search_request "accept" (APIKey cfg) (search_term zone) in
      let st' := {| world := snd (Do req (world st));
                    sent := sent st ++ [req] |} in
      match fst (Do req (world st)) with
      | Failed None _ => (Panic nil_dereference, st')
      | Failed (Some resp) _
      | Responded resp =>
          (Val (fst (json_Unmarshal (fst (ReadAll resp))), None), st')
      end
  end.
Proof.
  intros Hz.
  destruct (string_at_last zone st Hz) as (c & Hc & Hterm).
  unfold MainGo.GetZone, bind. rewrite Hc. cbv zeta. rewrite Hterm.
  change ("https://api.bunny.net/dnszone?page=1&perPage=1&search="
          ++ search_term zone)%string with (search_url (search_term zone)).
  unfold http_NewRequest.
  destruct (NewRequest_error "GET" (search_url (search_term zone)));
    [reflexivity|].
  unfold deref, ret, client_Do, Header_Add; cbn [Method URL Header Body app].
  change (mkRequest "GET" (search_url (search_term zone))
            [("accept", "application/json"); ("AccessKey", APIKey cfg)] None)
    with (search_request "accept" (APIKey cfg) (search_term zone)).
  destruct (Do _ (world st)) as [[resp | [resp|] e] w]; cbn [fst snd];
    try reflexivity.
  - destruct (ReadAll resp) as [body e']; cbn [fst].
    destruct (json_Unmarshal body) as [data e'']; reflexivity.
  - destruct (ReadAll resp) as [body e']; cbn [fst].
    destruct (json_Unmarshal body) as [data e'']; reflexivity.
Qed.

End LookupFacts.

(** ** CleanUp, case by case *)

(** Case analysis on a scrutinee of the goal that holds no other. *)
Ltac destruct_scrutinee :=
  match goal with
  | |- context [match ?x with _ => _ end] =>
      lazymatch x with
      | context [match _ with _ => _ end] => fail
      | _ => destruct x
      end
  end.

Section CleanUpFacts.
Context `{Env}.

Lemma CleanUp_run (rev : Revision) (ch : option ChallengeRequest)
    (st : State) :
  CleanUp rev ch st =
  if String.eqb ApiKey "" then (Panic "API_KEY must be specified", st)
  else
    match ch with
    | None => (Panic nil_dereference, st)
    | Some c =>
        match GetZone rev (ResolvedZone c) config st with
        | (Panic msg, st1) => (Panic msg, st1)
        | (Val (_, Some e), st1) =>
            (Val (fmt_Errorf_w "failed to get zone ID: " e), st1)
        | (Val (zoneData, None), st1) =>
            match Items zoneData with
            | [] =>
                (Panic (index_out_of_range 0 ++ " with length 0"), st1)
            | item :: _ =>
                let recordID :=
                  range_records (Item_Records item) (hostname_of c)
                    (Key c) 0 in
                if recordID =? 0 then (Val None, st1)
                else
                  let req :=
                    delete_request ApiKey (Item_ID item) recordID in
                  match NewRequest_error "DELETE" (URL req) with
                  | Some e => (Val (Some e), st1)
                  | None =>
                      (Val (error_of (fst (Do req (world st1)))),
                       {| world := snd (Do req (world st1));
                          sent := sent st1 ++ [req] |})
                  end
            end
        end
    end.
Proof.
  destruct rev;
    cbv beta iota zeta delta
      [CleanUp GetZone MainGo.CleanUp Part000.CleanUp MainGo.loadConfig
       Part000.loadConfig Part000.errMissingAPIKey config hostname_of
       hostname bind ret panic deref first client_Do http_NewRequest
       Header_Add delete_request error_of MainGo.bunnyAPIBase
       Part000.bunnyAPIBase Method URL Header Body APIKey app fst snd];
    repeat destruct_scrutinee; reflexivity.
Qed.

End CleanUpFacts.

(** ** Present, case by case *)

Section PresentFacts.
Context `{Env}.

Lemma Header_Set_fresh (m u : string) (b : option JSON.object)
    (a ct k : string) :
  Header_Set
    (Header_Set (Header_Set (mkRequest m u [] b) "Accept" a) "Content-Type" ct)
    "AccessKey" k
  = mkRequest m u [("Accept", a); ("Content-Type", ct); ("AccessKey", k)] b.
Proof. reflexivity. Qed.

Lemma Present_run (rev : Revision) (c : ChallengeRequest) (st : State) :
  String.eqb ApiKey "" = false ->
  Present rev (Some c) st =
  match GetZone rev (ResolvedZone c) config st with
  | (Panic msg, st1) => (Panic msg, st1)
  | (Val (_, Some e), st1) =>
      (Val (fmt_Errorf_w "failed to get zone ID: " e), st1)
  | (Val (data, None), st1) =>
      match Items data with
      | [] => (Panic (index_out_of_range 0 ++ " with length 0"), st1)
      | item :: _ =>
          let req := create_request ApiKey (Item_ID item) (payload rev c) in
          match NewRequest_error "PUT" (URL req) with
          | Some e =>
              (Val (fmt_Errorf_w "failed to create request: " e), st1)
          | None =>
              let st2 := {| world := snd (Do req (world st1));
                            sent := sent st1 ++ [req] |} in
              match fst (Do req (world st1)) with
              | Failed _ e =>
                  (Val (fmt_Errorf_w "failed to send request: " e), st2)
              | Responded resp =>
                  match ReadAll resp with
                  | (_, Some e) =>
                      (Val (fmt_Errorf_w "failed to read response: " e), st2)
                  | (body, None) =>
                      if 400 <=? StatusCode resp then
                        (Val (fmt_Errorf
                                ("API request failed with status "
                                 ++ itoa (StatusCode resp) ++ ": " ++ body)),
                         st2)
                      else (Val None, st2)
                  end
              end
          end
      end
  end.
Proof.
  intros Hkey.
  destruct rev;
    cbv beta iota zeta delta
      [Present GetZone MainGo.Present Part000.Present MainGo.loadConfig
       Part000.loadConfig MainGo.GetZoneID Part000.GetZoneID config
       hostname_of hostname bind ret panic deref first client_Do
       http_NewRequest create_request payload MainGo.bunnyAPIBase
       Part000.bunnyAPIBase MainGo.recordType MainGo.recordTTL
       Part000.recordType Part000.recordTTL MethodPut];
    rewrite Hkey;
    repeat first [ rewrite Header_Set_fresh
                 | progress cbv beta iota zeta delta [fst snd URL JSON.Marshal]
                 | destruct_scrutinee ];
    reflexivity.
Qed.

End PresentFacts.

(** ** What goes out on the wire *)

Section LogFacts.
Context `{Env}.

(** The lookup sends nothing, or the one search request. *)
Lemma GetZone_log (rev : Revision) (zone : string) (cfg : bunnyNetDNSConfig)
    (st : State) :
  sent (snd (GetZone rev zone cfg st)) = sent st \/
  sent (snd (GetZone rev zone cfg st))
  = sent st ++ [search_request (accept rev) (APIKey cfg) (search_term zone)].
Proof.
  destruct (string_dec zone "") as [-> | Hz].
  - left. destruct rev; reflexivity.
  - destruct rev; unfold GetZone, accept.
    + rewrite MainGo_GetZone_run by assumption. cbv zeta.
      repeat destruct_scrutinee; cbn [snd fst sent]; auto.
    + rewrite Part000_GetZone_run by assumption. cbv zeta.
      repeat destruct_scrutinee; cbn [snd fst sent]; auto.
Qed.

Lemma GetZone_log_result (rev : Revision) (zone : string)
    (cfg : bunnyNetDNSConfig) (st st1 : State)
    (r : result (ZoneResponse * error)) :
  GetZone rev zone cfg st = (r, st1) ->
  exists l, sent st1 = sent st ++ l /\ filter mutating l = [].
Proof.
  intros E. destruct (GetZone_log rev zone cfg st) as [L | L];
    rewrite E in L; cbn [snd] in L; rewrite L.
  - exists []. now rewrite app_nil_r.
  - eexists; split; [reflexivity|]. reflexivity.
Qed.

Lemma find_split {A} (f : A -> bool) (l : list A) (r : A) :
  find f l = Some r ->
  exists before after,
    l = before ++ r :: after /\
    (forall x, In x before -> f x = false) /\
    f r = true.
Proof.
  induction l as [|a l IH]; simpl; [discriminate|].
  destruct (f a) eqn:Fa.
  - intros [= ->]. exists [], l. repeat split; [intros x []| assumption].
  - intros E. destruct (IH E) as (before & after & -> & Hb & Hr).
    exists (a :: before), after. repeat split; [|assumption].
    intros x [<- | Hx]; auto.
Qed.

Lemma find_first {A} (f : A -> bool) (before after : list A) (r : A) :
  (forall x, In x before -> f x = false) -> f r = true ->
  find f (before ++ r :: after) = Some r.
Proof.
  intros Hb Hr. induction before as [|a before IH]; simpl.
  - now rewrite Hr.
  - rewrite (Hb a) by now left. apply IH. intros x Hx. apply Hb. now right.
Qed.

Lemma find_no_match {A} (f : A -> bool) (l : list A) :
  (forall x, In x l -> f x = false) -> find f l = None.
Proof.
  induction l as [|a l IH]; simpl; intros Hl; [reflexivity|].
  rewrite (Hl a) by now left. apply IH. intros x Hx. apply Hl. now right.
Qed.

Lemma matches_false (h k : string) (r : Record) :
  ~ (Record_Type r = 3 /\ Record_Name r = h /\ Record_Value r = k) ->
  matches h k r = false.
Proof.
  intros N. destruct (matches h k r) eqn:E; [|reflexivity].
  apply matches_spec in E. contradiction.
Qed.

Lemma issued_eq {A} (m : M A) (st st' : State) (r : result A)
    (l : list Request) :
  m st = (r, st') -> sent st' = sent st ++ l -> issued m st = l.
Proof.
  intros E L. apply issued_app. now rewrite E.
Qed.

End LogFacts.

(** ** CleanUp: which record goes *)

Section CleanUpClaims.
Context `{Env}.

Lemma delete_is_mutating (q : Request) :
  is_delete q = true -> mutating q = true.
Proof. unfold is_delete, mutating. intros ->. apply orb_true_r. Qed.

Lemma filter_delete_mutating (l : list Request) :
  filter is_delete l = filter is_delete (filter mutating l).
Proof.
  induction l as [|q l IH]; [reflexivity|].
  cbn [filter]. destruct (is_delete q) eqn:D.
  - rewrite (delete_is_mutating q D). cbn [filter]. rewrite D. now f_equal.
  - destruct (mutating q); cbn [filter]; [rewrite D|]; exact IH.
Qed.

Lemma NoDup_map_injective {A B} (f : A -> B) (l : list A) (x y : A) :
  NoDup (map f l) -> In x l -> In y l -> f x = f y -> x = y.
Proof.
  induction l as [|a l IH]; simpl; [intros _ []|].
  intros N Hx Hy E. inversion N as [|? ? Hnot N']; subst.
  destruct Hx as [<- | Hx], Hy as [<- | Hy]; auto.
  - destruct Hnot. rewrite E. now apply in_map.
  - destruct Hnot. rewrite <- E. now apply in_map.
Qed.

(** The mutating requests of a run of [CleanUp]: none, or the DELETE for
    the identifier the loop ended on. *)
Lemma CleanUp_mutations (rev : Revision) (ch : option ChallengeRequest)
    (st : State) :
  filter mutating (issued (CleanUp rev ch) st) = [] \/
  exists c zoneData st1 item rest,
    ch = Some c /\
    GetZone rev (ResolvedZone c) config st = (Val (zoneData, None), st1) /\
    Items zoneData = item :: rest /\
    range_records (Item_Records item) (hostname_of c) (Key c) 0 <> 0 /\
    filter mutating (issued (CleanUp rev ch) st)
    = [delete_request ApiKey (Item_ID item)
         (range_records (Item_Records item) (hostname_of c) (Key c) 0)].
Proof.
  assert (Hsame : forall st',
            sent st' = sent st ->
            forall r, CleanUp rev ch st = (r, st') ->
            filter mutating (issued (CleanUp rev ch) st) = []).
  { intros st' L r E. rewrite (issued_eq _ _ _ _ [] E); [reflexivity|].
    now rewrite app_nil_r. }
  pose proof (CleanUp_run rev ch st) as E.
  destruct (String.eqb ApiKey ""); [left; eapply Hsame; eauto|].
  destruct ch as [c|]; [|left; eapply Hsame; eauto].
  destruct (GetZone rev (ResolvedZone c) config st)
    as [[[zd [e|]]|msg] st1] eqn:G;
    destruct (GetZone_log_result _ _ _ _ _ _ G) as (l & L & Hl).
  - left. now rewrite (issued_eq _ _ _ _ l E).
  - destruct (Items zd) as [|item rest] eqn:I.
    { left. now rewrite (issued_eq _ _ _ _ l E). }
    cbv zeta in E.
    destruct (_ =? 0) eqn:Z in E.
    { left. now rewrite (issued_eq _ _ _ _ l E). }
    destruct (NewRequest_error "DELETE" _) in E.
    { left. now rewrite (issued_eq _ _ _ _ l E). }
    right. exists c, zd, st1, item, rest.
    repeat split; try assumption.
    + now apply Z.eqb_neq.
    + rewrite (issued_eq _ _ _ _ (l ++ [delete_request ApiKey (Item_ID item)
         (range_records (Item_Records item) (hostname_of c) (Key c) 0)]) E).
      * rewrite filter_app, Hl. reflexivity.
      * cbn [sent]. rewrite L. now rewrite app_assoc.
  - left. now rewrite (issued_eq _ _ _ _ l E).
Qed.

(** C1.  Every DELETE request that a run of CleanUp issues, in either
    revision, is the only one of the run and is addressed to the first
    record, in the order the provider returned them, whose Type is 3, whose
    Name is the relative hostname and whose Value is the request's Key.  A
    record whose Value differs from the Key is never the addressee, the
    provider's identifiers being distinct. *)
Theorem CleanUp_deletes_only_first_match (rev : Revision)
    (ch : option ChallengeRequest) (st : State) (req : Request) :
  In req (issued (CleanUp rev ch) st) ->
  is_delete req = true ->
  exists c zoneData st1 item rest before r after,
    ch = Some c /\
    GetZone rev (ResolvedZone c) config st = (Val (zoneData, None), st1) /\
    Items zoneData = item :: rest /\
    Item_Records item = before ++ r :: after /\
    (forall r', In r' before ->
       ~ (Record_Type r' = 3 /\ Record_Name r' = hostname_of c
          /\ Record_Value r' = Key c)) /\
    Record_Type r = 3 /\
    Record_Name r = hostname_of c /\
    Record_Value r = Key c /\
    req = delete_request ApiKey (Item_ID item) (Record_ID r) /\
    filter is_delete (issued (CleanUp rev ch) st) = [req] /\
    (NoDup (map Record_ID (Item_Records item)) ->
     forall r', In r' (Item_Records item) ->
       Record_Value r' <> Key c -> Record_ID r' <> Record_ID r).
Proof.
  intros Hin Hdel.
  assert (Hm : In req (filter mutating (issued (CleanUp rev ch) st))).
  { apply filter_In. split; [assumption|]. now apply delete_is_mutating. }
  destruct (CleanUp_mutations rev ch st)
    as [E | (c & zd & st1 & item & rest & -> & G & I & Hrid & E)].
  { rewrite E in Hm. destruct Hm. }
  rewrite E in Hm. destruct Hm as [<- | []].
  rewrite range_records_find in Hrid, E |- *.
  destruct (find (matches (hostname_of c) (Key c)) (Item_Records item))
    as [r|] eqn:F; [|congruence].
  destruct (find_split _ _ _ F) as (before & after & Hrec & Hb & Hr).
  apply matches_spec in Hr. destruct Hr as (Ht & Hn & Hv).
  exists c, zd, st1, item, rest, before, r, after.
  repeat split; try assumption.
  - intros r' Hr' Hmatch. apply matches_spec in Hmatch.
    rewrite (Hb r' Hr') in Hmatch. discriminate.
  - rewrite filter_delete_mutating, E. reflexivity.
  - intros N r' Hr' Hv' Hid. apply Hv'.
    rewrite (NoDup_map_injective Record_ID _ r' r N Hr'); auto.
    rewrite Hrec. apply in_elt.
Qed.

End CleanUpClaims.

(** ** CleanUp: when nothing goes *)

Section CleanUpNoop.
Context `{Env}.

(** With a provider whose state a GET leaves alone, a lookup that found a
    zone finds it again. *)
Lemma GetZone_again (rev : Revision) (zone : string) (cfg : bunnyNetDNSConfig)
    (st st1 : State) (zoneData : ZoneResponse) :
  (forall q w, Method q = "GET" -> snd (Do q w) = w) ->
  GetZone rev zone cfg st = (Val (zoneData, None), st1) ->
  world st1 = world st /\
  forall st', world st' = world st ->
    exists st2,
      GetZone rev zone cfg st' = (Val (zoneData, None), st2) /\
      world st2 = world st'.
Proof.
  intros RO G.
  destruct (string_dec zone "") as [-> | Hz].
  { destruct rev; discriminate G. }
  assert (W : forall a,
             snd (Do (search_request a (APIKey cfg) (search_term zone))
                    (world st)) = world st)
    by (intros a; now apply RO).
  destruct rev; unfold GetZone in *.
  - rewrite MainGo_GetZone_run in G by assumption.
    split.
    + revert G. cbv zeta. rewrite W.
      repeat destruct_scrutinee; intros [= <- <-] || intros [=]; reflexivity.
    + intros st' E. rewrite MainGo_GetZone_run by assumption.
      revert G. cbv zeta. rewrite E, W.
      repeat destruct_scrutinee; intros [= <- <-] || intros [=];
        eexists; (split; [reflexivity|]); cbn [world]; congruence.
  - rewrite Part000_GetZone_run in G by assumption.
    split.
    + revert G. cbv zeta. rewrite W.
      repeat destruct_scrutinee; intros [= <- <-] || intros [=]; reflexivity.
    + intros st' E. rewrite Part000_GetZone_run by assumption.
      revert G. cbv zeta. rewrite E, W.
      repeat destruct_scrutinee; intros [= <- <-] || intros [=];
        eexists; (split; [reflexivity|]); cbn [world]; congruence.
Qed.

(** What CleanUp does once the loop has ended on identifier 0. *)
Lemma CleanUp_on_zero (rev : Revision) (c : ChallengeRequest)
    (st st1 : State) (zoneData : ZoneResponse) (item : Item)
    (rest : list Item) :
  ApiKey <> "" ->
  GetZone rev (ResolvedZone c) config st = (Val (zoneData, None), st1) ->
  Items zoneData = item :: rest ->
  range_records (Item_Records item) (hostname_of c) (Key c) 0 = 0 ->
  CleanUp rev (Some c) st = (Val None, st1) /\
  filter mutating (issued (CleanUp rev (Some c)) st) = [].
Proof.
  intros K G I R.
  assert (E : CleanUp rev (Some c) st = (Val None, st1)).
  { rewrite CleanUp_run.
    apply String.eqb_neq in K. rewrite K, G, I. cbv zeta. now rewrite R. }
  split; [assumption|].
  destruct (GetZone_log_result _ _ _ _ _ _ G) as (l & L & Hl).
  now rewrite (issued_eq _ _ _ _ l E).
Qed.

(** C8.  When the zone the lookup returned holds no record with Type 3, the
    relative hostname as Name and the request's Key as Value, CleanUp, in
    either revision, returns nil and issues no PUT and no DELETE.  Run again
    right after, against a provider whose state a GET leaves alone, it
    returns nil again and again changes nothing.  (The API key is set, as
    [main] sees to at startup; without it [loadConfig] panics.) *)
Theorem CleanUp_without_match_is_noop (rev : Revision) (c : ChallengeRequest)
    (st st1 : State) (zoneData : ZoneResponse) (item : Item)
    (rest : list Item) :
  ApiKey <> "" ->
  GetZone rev (ResolvedZone c) config st = (Val (zoneData, None), st1) ->
  Items zoneData = item :: rest ->
  (forall r, In r (Item_Records item) ->
     ~ (Record_Type r = 3 /\ Record_Name r = hostname_of c
        /\ Record_Value r = Key c)) ->
  CleanUp rev (Some c) st = (Val None, st1) /\
  filter mutating (issued (CleanUp rev (Some c)) st) = [] /\
  ((forall q w, Method q = "GET" -> snd (Do q w) = w) ->
   world st1 = world st /\
   exists st2,
     CleanUp rev (Some c) st1 = (Val None, st2) /\
     world st2 = world st1 /\
     filter mutating (issued (CleanUp rev (Some c)) st1) = []).
Proof.
  intros K G I N.
  assert (R : range_records (Item_Records item) (hostname_of c) (Key c) 0 = 0).
  { rewrite range_records_find, find_no_match; [reflexivity|].
    intros r Hr. apply matches_false. now apply N. }
  destruct (CleanUp_on_zero rev c st st1 zoneData item rest K G I R)
    as [E M].
  split; [assumption | split; [assumption | intros RO]].
  destruct (GetZone_again _ _ _ _ _ _ RO G) as [W Again].
  split; [assumption|].
  destruct (Again st1 W) as (st2 & G2 & W2).
  exists st2.
  destruct (CleanUp_on_zero rev c st1 st2 zoneData item rest K G2 I R).
  repeat split; assumption.
Qed.

(** C10.  Identifier 0 is the not-found mark of CleanUp: when the first
    record that matches (Type 3, the relative hostname, the Key) carries the
    identifier 0, CleanUp, in either revision, returns nil in the state the
    lookup left and issues no DELETE, which is what it does when no record
    matches ([CleanUp_without_match_is_noop]).  (The API key is set.) *)
Theorem CleanUp_zero_ID_is_not_found (rev : Revision) (c : ChallengeRequest)
    (st st1 : State) (zoneData : ZoneResponse) (item : Item)
    (rest : list Item) (before after : list Record) (r : Record) :
  ApiKey <> "" ->
  GetZone rev (ResolvedZone c) config st = (Val (zoneData, None), st1) ->
  Items zoneData = item :: rest ->
  Item_Records item = before ++ r :: after ->
  (forall r', In r' before ->
     ~ (Record_Type r' = 3 /\ Record_Name r' = hostname_of c
        /\ Record_Value r' = Key c)) ->
  Record_Type r = 3 ->
  Record_Name r = hostname_of c ->
  Record_Value r = Key c ->
  Record_ID r = 0 ->
  CleanUp rev (Some c) st = (Val None, st1) /\
  filter is_delete (issued (CleanUp rev (Some c)) st) = [] /\
  filter mutating (issued (CleanUp rev (Some c)) st) = [].
Proof.
  intros K G I Hrec Hb Ht Hn Hv Hid.
  assert (R : range_records (Item_Records item) (hostname_of c) (Key c) 0 = 0).
  { rewrite range_records_find, Hrec, (find_first _ before after r).
    - exact Hid.
    - intros r' Hr'. apply matches_false. now apply Hb.
    - apply matches_spec. auto. }
  destruct (CleanUp_on_zero rev c st st1 zoneData item rest K G I R)
    as [E M].
  repeat split; try assumption.
  now rewrite filter_delete_mutating, M.
Qed.

End CleanUpNoop.

(** ** Present: what is submitted *)

Section PresentClaims.
Context `{Env}.

Lemma Present_without_key (rev : Revision) (ch : option ChallengeRequest)
    (st : State) :
  String.eqb ApiKey "" = true -> ch <> None ->
  Present rev ch st = (Panic "API_KEY must be specified", st).
Proof.
  intros K N. destruct ch as [c|]; [|congruence].
  destruct rev;
    cbv beta iota delta [Present MainGo.Present Part000.Present
      MainGo.loadConfig Part000.loadConfig Part000.errMissingAPIKey bind panic];
    rewrite K; reflexivity.
Qed.

(** Every PUT that [Present] issues is the create request for the payload
    of the revision. *)
Lemma Present_put (rev : Revision) (c : ChallengeRequest) (st : State)
    (req : Request) :
  In req (issued (Present rev (Some c)) st) -> Method req = "PUT" ->
  exists zoneID, req = create_request ApiKey zoneID (payload rev c).
Proof.
  intros Hin Hput.
  destruct (String.eqb ApiKey "") eqn:K.
  { unfold issued in Hin.
    rewrite Present_without_key in Hin by (assumption || discriminate).
    cbn [snd] in Hin. rewrite skipn_all in Hin. destruct Hin. }
  pose proof (Present_run rev c st K) as E.
  assert (Hget : forall l, filter mutating l = [] -> ~ In req l).
  { intros l Hl Hr.
    assert (Hm : In req (filter mutating l)).
    { apply filter_In. split; [assumption|].
      unfold mutating. now rewrite Hput. }
    rewrite Hl in Hm. destruct Hm. }
  destruct (GetZone rev (ResolvedZone c) config st)
    as [[[zd [e|]]|msg] st1] eqn:G;
    destruct (GetZone_log_result _ _ _ _ _ _ G) as (l & L & Hl).
  - rewrite (issued_eq _ _ _ _ l E) in Hin by assumption.
    now destruct (Hget l Hl).
  - destruct (Items zd) as [|item rest].
    { rewrite (issued_eq _ _ _ _ l E) in Hin by assumption.
      now destruct (Hget l Hl). }
    cbv zeta in E.
    destruct (NewRequest_error "PUT" _) in E.
    { rewrite (issued_eq _ _ _ _ l E) in Hin by assumption.
      now destruct (Hget l Hl). }
    assert (Hin' : In req (l ++ [create_request ApiKey (Item_ID item)
                                   (payload rev c)])).
    { revert E Hin. repeat destruct_scrutinee; intros E Hin;
        rewrite (issued_eq _ _ _ _
                   (l ++ [create_request ApiKey (Item_ID item) (payload rev c)])
                   E) in Hin; try exact Hin;
        cbn [sent]; rewrite L; now rewrite app_assoc. }
    apply in_app_or in Hin'. destruct Hin' as [Hl' | [<- | []]].
    + now destruct (Hget l Hl).
    + now exists (Item_ID item).
  - rewrite (issued_eq _ _ _ _ l E) in Hin by assumption.
    now destruct (Hget l Hl).
Qed.

(** C2.  Scenario A: for the request with FQDN
    "_acme-challenge.example.com.", zone "example.com." and key "tok1",
    the relative hostname is "_acme-challenge", and once the lookup has
    returned a zone Present, in either revision, sends one PUT to the
    records of that zone.  Its body is [json.Marshal] of the record with
    Type 3, Ttl 10, Value "tok1", Name "_acme-challenge" and Disabled false;
    it has no member beyond these five and denotes exactly these values.
    (The API key is set, and [http.NewRequest] accepts the URL.) *)
Theorem Present_scenario_A (rev : Revision) (st st1 : State)
    (zoneData : ZoneResponse) (item : Item) (rest : list Item) :
  ApiKey <> "" ->
  GetZone rev "example.com." config st = (Val (zoneData, None), st1) ->
  Items zoneData = item :: rest ->
  NewRequest_error "PUT"
    ("https://api.bunny.net" ++ "/dnszone/" ++ itoa (Item_ID item)
     ++ "/records")%string = None ->
  hostname_of Scenario.requestA = "_acme-challenge" /\
  exists body,
    sent (snd (Present rev (Some Scenario.requestA) st))
    = sent st1 ++ [create_request ApiKey (Item_ID item) body] /\
    body = fst (JSON.Marshal
                  match rev with
                  | main_go =>
                      MainGo.PresentRecord_fields
                        {| MainGo.Type_ := 3;
                           MainGo.TTL := 10;
                           MainGo.Value := "tok1";
                           MainGo.Name_ := "_acme-challenge";
                           MainGo.Disabled := false |}
                  | part_000 =>
                      Part000.Record_fields
                        {| Record_ID := 0;
                           Record_Type := 3;
                           Record_Ttl := 10;
                           Record_Value := "tok1";
                           Record_Name := "_acme-challenge";
                           Record_Disabled := false |}
                  end) /\
    incl (JSON.keys body) ["Type"; "Ttl"; "Value"; "Name"; "Disabled"] /\
    Record_of_object body
    = {| Record_ID := 0;
         Record_Type := 3;
         Record_Ttl := 10;
         Record_Value := "tok1";
         Record_Name := "_acme-challenge";
         Record_Disabled := false |}.
Proof.
  intros K G I N. split; [reflexivity|].
  exists (payload rev Scenario.requestA).
  split; [|split; [|split]].
  - apply String.eqb_neq in K.
    rewrite (Present_run rev Scenario.requestA st K).
    change (ResolvedZone Scenario.requestA) with "example.com.".
    rewrite G, I. cbv zeta.
    change (URL (create_request ApiKey (Item_ID item)
                   (payload rev Scenario.requestA)))
      with ("https://api.bunny.net" ++ "/dnszone/" ++ itoa (Item_ID item)
            ++ "/records")%string.
    rewrite N.
    repeat destruct_scrutinee; reflexivity.
  - destruct rev; reflexivity.
  - destruct rev; intros k Hk; vm_compute in Hk; cbn [In]; intuition auto.
  - destruct rev; reflexivity.
Qed.

(** The body [src/main.go] submits has the five members, whatever the
    request. *)
Lemma MainGo_payload_keys (c : ChallengeRequest) :
  JSON.keys (payload main_go c) = ["Type"; "Ttl"; "Value"; "Name"; "Disabled"].
Proof. reflexivity. Qed.

(** The body [src/unnamed/part_000] submits: [Id] and [Disabled] are empty
    and [omitempty] drops them; [Value] and [Name] go the same way when
    empty. *)
Lemma Part000_payload_keys (c : ChallengeRequest) :
  JSON.keys (payload part_000 c)
  = ["Type"; "Ttl"]
    ++ (if len (Key c) =? 0 then [] else ["Value"])
    ++ (if len (hostname_of c) =? 0 then [] else ["Name"]).
Proof.
  unfold payload, JSON.Marshal, Part000.Record_fields, JSON.keys, JSON.written.
  cbn [fst filter map JSON.omitempty JSON.val JSON.name JSON.isEmptyValue
       Record_ID Record_Type Record_Ttl Record_Value Record_Name
       Record_Disabled andb negb Z.eqb app].
  destruct (len (Key c) =? 0), (len (hostname_of c) =? 0); reflexivity.
Qed.

(** C4, on [src/unnamed/part_000].  Whatever the request, the body of every
    PUT that Present issues has no member Disabled: its members are among
    Type, Ttl, Value and Name. *)
Theorem Part000_Present_body_lacks_Disabled (c : ChallengeRequest)
    (st : State) (req : Request) :
  In req (issued (Part000.Present (Some c)) st) ->
  Method req = "PUT" ->
  exists body,
    Body req = Some body /\
    ~ In "Disabled" (JSON.keys body) /\
    ~ In "Id" (JSON.keys body) /\
    incl (JSON.keys body) ["Type"; "Ttl"; "Value"; "Name"].
Proof.
  intros Hin Hput.
  destruct (Present_put part_000 c st req Hin Hput) as [zoneID ->].
  exists (payload part_000 c). split; [reflexivity|].
  rewrite Part000_payload_keys.
  destruct (len (Key c) =? 0), (len (hostname_of c) =? 0);
    cbn [app]; (split; [|split]);
    try (intros Hk; cbn [In] in Hk; intuition discriminate);
    intros k Hk; cbn [In] in *; intuition auto.
Qed.

(** X5.  Whatever the request, the body of every PUT that Present of
    [src/main.go] sends has exactly the members Type, Ttl, Value, Name and
    Disabled, in this order. *)
Lemma MainGo_Present_body_has_five_members (c : ChallengeRequest)
    (st : State) (req : Request) :
  In req (issued (MainGo.Present (Some c)) st) ->
  Method req = "PUT" ->
  exists body,
    Body req = Some body /\
    JSON.keys body = ["Type"; "Ttl"; "Value"; "Name"; "Disabled"].
Proof.
  intros Hin Hput.
  destruct (Present_put main_go c st req Hin Hput) as [zoneID ->].
  exists (payload main_go c). split; [reflexivity|]. apply MainGo_payload_keys.
Qed.

End PresentClaims.

(** ** Failures of the lookup *)

Section LookupClaims.
Context `{Env}.

Lemma zone_search_MainGo (zone : string) (st st1 : State)
    (data : ZoneResponse) :
  zone_search "accept" zone st data st1 ->
  MainGo.GetZone zone config st = (Val (data, None), st1).
Proof.
  intros (Hz & N & resp & w & body & D & R & U & ->).
  rewrite MainGo_GetZone_run by assumption.
  rewrite N. cbv zeta. change (APIKey config) with ApiKey.
  rewrite D. cbn [fst snd]. rewrite R. cbn [fst]. now rewrite U.
Qed.

Lemma zone_search_Part000 (zone : string) (st st1 : State)
    (data : ZoneResponse) :
  zone_search "Accept" zone st data st1 ->
  Part000.GetZone zone config st =
  if len_list (Items data) =? 0 then
    (Val (ZoneResponse_zero,
          fmt_Errorf ("no DNS zone found for " ++ search_term zone)), st1)
  else (Val (data, None), st1).
Proof.
  intros (Hz & N & resp & w & body & D & R & U & ->).
  rewrite Part000_GetZone_run by assumption.
  rewrite N. cbv zeta. change (APIKey config) with ApiKey.
  rewrite D. cbn [fst snd]. now rewrite R, U.
Qed.

(** C3, on [src/main.go].  When the provider answers the zone search with
    zero items, Present and CleanUp of this revision return no error: both
    panic on [Items[0]], index out of range.  Nothing that changes the zone
    has gone out by then. *)
Theorem MainGo_zero_items_panic (c : ChallengeRequest) (st st1 : State)
    (data : ZoneResponse) :
  ApiKey <> "" ->
  zone_search "accept" (ResolvedZone c) st data st1 ->
  Items data = [] ->
  MainGo.Present (Some c) st
  = (Panic "runtime error: index out of range [0] with length 0", st1) /\
  MainGo.CleanUp (Some c) st
  = (Panic "runtime error: index out of range [0] with length 0", st1) /\
  filter mutating (issued (MainGo.Present (Some c)) st) = [] /\
  filter mutating (issued (MainGo.CleanUp (Some c)) st) = [].
Proof.
  intros K S I.
  pose proof S as (_ & _ & resp & w & body & _ & _ & _ & L).
  apply zone_search_MainGo in S. apply String.eqb_neq in K.
  assert (P : MainGo.Present (Some c) st
              = (Panic "runtime error: index out of range [0] with length 0",
                 st1)).
  { change (MainGo.Present (Some c) st) with (Present main_go (Some c) st).
    rewrite (Present_run main_go c st K).
    unfold GetZone. now rewrite S, I. }
  assert (C : MainGo.CleanUp (Some c) st
              = (Panic "runtime error: index out of range [0] with length 0",
                 st1)).
  { change (MainGo.CleanUp (Some c) st) with (CleanUp main_go (Some c) st).
    rewrite CleanUp_run, K. unfold GetZone. now rewrite S, I. }
  split; [exact P | split; [exact C | split]].
  - rewrite (issued_eq _ _ _ _
               [search_request "accept" ApiKey (search_term (ResolvedZone c))]
               P); [reflexivity | rewrite L; reflexivity].
  - rewrite (issued_eq _ _ _ _
               [search_request "accept" ApiKey (search_term (ResolvedZone c))]
               C); [reflexivity | rewrite L; reflexivity].
Qed.

(** X1.  [src/unnamed/part_000] on a search that returns zero items: the
    zone-not-found error from both entry points, and nothing sent that
    changes the zone. *)
Lemma Part000_zero_items_error (c : ChallengeRequest) (st st1 : State)
    (data : ZoneResponse) :
  ApiKey <> "" ->
  zone_search "Accept" (ResolvedZone c) st data st1 ->
  Items data = [] ->
  let not_found :=
    fmt_Errorf_w "failed to get zone ID: "
      (errorString ("no DNS zone found for " ++ search_term (ResolvedZone c))) in
  Part000.Present (Some c) st = (Val not_found, st1) /\
  Part000.CleanUp (Some c) st = (Val not_found, st1) /\
  filter mutating (issued (Part000.Present (Some c)) st) = [] /\
  filter mutating (issued (Part000.CleanUp (Some c)) st) = [].
Proof.
  intros K S I not_found.
  pose proof S as (_ & _ & resp & w & body & _ & _ & _ & L).
  apply zone_search_Part000 in S. rewrite I in S.
  change (len_list [] =? 0) with true in S. cbv iota in S.
  apply String.eqb_neq in K.
  assert (P : Part000.Present (Some c) st = (Val not_found, st1)).
  { change (Part000.Present (Some c) st) with (Present part_000 (Some c) st).
    rewrite (Present_run part_000 c st K). unfold GetZone. now rewrite S. }
  assert (C : Part000.CleanUp (Some c) st = (Val not_found, st1)).
  { change (Part000.CleanUp (Some c) st) with (CleanUp part_000 (Some c) st).
    rewrite CleanUp_run, K. unfold GetZone. now rewrite S. }
  repeat split; try assumption.
  - rewrite (issued_eq _ _ _ _
               [search_request "Accept" ApiKey (search_term (ResolvedZone c))]
               P); [reflexivity | rewrite L; reflexivity].
  - rewrite (issued_eq _ _ _ _
               [search_request "Accept" ApiKey (search_term (ResolvedZone c))]
               C); [reflexivity | rewrite L; reflexivity].
Qed.

(** C7, on [src/main.go].  The zone fetch of this revision hands no failure
    of its steps to the caller: a send that fails without a response ends
    in a nil dereference, a read that fails and a decode that fails are
    passed over, and whenever the function returns its error is nil. *)
Theorem MainGo_GetZone_drops_errors (zone : string) (cfg : bunnyNetDNSConfig)
    (st : State) :
  zone <> "" ->
  NewRequest_error "GET" (search_url (search_term zone)) = None ->
  let req := search_request "accept" (APIKey cfg) (search_term zone) in
  let st' := {| world := snd (Do req (world st)); sent := sent st ++ [req] |} in
  (forall e, fst (Do req (world st)) = Failed None e ->
     MainGo.GetZone zone cfg st = (Panic nil_dereference, st')) /\
  (forall resp body e,
     fst (Do req (world st)) = Responded resp ->
     ReadAll resp = (body, Some e) ->
     MainGo.GetZone zone cfg st
     = (Val (fst (json_Unmarshal body), None), st')) /\
  (forall resp body data e,
     fst (Do req (world st)) = Responded resp ->
     ReadAll resp = (body, None) ->
     json_Unmarshal body = (data, Some e) ->
     MainGo.GetZone zone cfg st = (Val (data, None), st')) /\
  (forall zoneData err st1,
     MainGo.GetZone zone cfg st = (Val (zoneData, err), st1) -> err = None).
Proof.
  intros Hz N req st'.
  rewrite MainGo_GetZone_run by assumption. rewrite N. cbv zeta.
  fold req. fold st'.
  repeat split.
  - intros e ->. reflexivity.
  - intros resp body e -> R. now rewrite R.
  - intros resp body data e -> R U. rewrite R. cbn [fst]. now rewrite U.
  - intros zd err st1. repeat destruct_scrutinee; congruence.
Qed.

(** X2.  [GetZone] of [src/unnamed/part_000]: each failing step of the
    fetch (send, read, decode) comes back wrapped in its context, with the
    zero response. *)
Lemma Part000_GetZone_wraps_errors (zone : string) (cfg : bunnyNetDNSConfig)
    (st : State) :
  zone <> "" ->
  NewRequest_error "GET" (search_url (search_term zone)) = None ->
  let req := search_request "Accept" (APIKey cfg) (search_term zone) in
  let st' := {| world := snd (Do req (world st)); sent := sent st ++ [req] |} in
  (forall resp e, fst (Do req (world st)) = Failed resp e ->
     Part000.GetZone zone cfg st
     = (Val (ZoneResponse_zero,
             Some (wrapError ("failed to execute request: " ++ Error_msg e) e)),
        st')) /\
  (forall resp body e,
     fst (Do req (world st)) = Responded resp ->
     ReadAll resp = (body, Some e) ->
     Part000.GetZone zone cfg st
     = (Val (ZoneResponse_zero,
             Some (wrapError ("failed to read response body: " ++ Error_msg e) e)),
        st')) /\
  (forall resp body data e,
     fst (Do req (world st)) = Responded resp ->
     ReadAll resp = (body, None) ->
     json_Unmarshal body = (data, Some e) ->
     Part000.GetZone zone cfg st
     = (Val (ZoneResponse_zero,
             Some (wrapError ("failed to unmarshal response: " ++ Error_msg e) e)),
        st')).
Proof.
  intros Hz N req st'.
  rewrite Part000_GetZone_run by assumption. rewrite N. cbv zeta.
  fold req. fold st'.
  repeat split.
  - intros resp e ->. reflexivity.
  - intros resp body e -> R. now rewrite R.
  - intros resp body data e -> R U. now rewrite R, U.
Qed.

(** X3.  Both entry points of [src/unnamed/part_000] pass an error of the
    lookup on, wrapped once more in "failed to get zone ID: ", in the state
    the lookup left. *)
Lemma Part000_lookup_error_returned (c : ChallengeRequest) (st st1 : State)
    (zoneData : ZoneResponse) (e : Error) :
  ApiKey <> "" ->
  Part000.GetZone (ResolvedZone c) config st = (Val (zoneData, Some e), st1) ->
  Part000.Present (Some c) st
  = (Val (Some (wrapError ("failed to get zone ID: " ++ Error_msg e) e)), st1) /\
  Part000.CleanUp (Some c) st
  = (Val (Some (wrapError ("failed to get zone ID: " ++ Error_msg e) e)), st1).
Proof.
  intros K G. apply String.eqb_neq in K. split.
  - change (Part000.Present (Some c) st) with (Present part_000 (Some c) st).
    rewrite (Present_run part_000 c st K). unfold GetZone. now rewrite G.
  - change (Part000.CleanUp (Some c) st) with (CleanUp part_000 (Some c) st).
    rewrite CleanUp_run, K. unfold GetZone. now rewrite G.
Qed.

(** C6, at the empty name.  The empty zone name does not end in a dot, and
    the lookup, in either revision, does not search for it: indexing its
    last byte panics before any request is built. *)
Theorem GetZone_empty_name_panics (rev : Revision) (cfg : bunnyNetDNSConfig)
    (st : State) :
  HasSuffix "" "." = false /\
  GetZone rev "" cfg st = (Panic "runtime error: index out of range [-1]", st) /\
  issued (GetZone rev "" cfg) st = [].
Proof.
  split; [reflexivity|]. split.
  - destruct rev; reflexivity.
  - apply issued_app. rewrite app_nil_r. destruct rev; reflexivity.
Qed.

(** X4.  On every name that is not empty the lookup, in either revision,
    sends exactly one request, the search (page 1, one per page) for the
    name less one trailing dot, or for the name itself when it ends in
    none. *)
Lemma GetZone_search_term (rev : Revision) (zone : string)
    (cfg : bunnyNetDNSConfig) (st : State) :
  zone <> "" ->
  NewRequest_error "GET" (search_url (search_term zone)) = None ->
  issued (GetZone rev zone cfg) st
  = [search_request (accept rev) (APIKey cfg) (search_term zone)] /\
  (forall p, zone = (p ++ ".")%string -> search_term zone = p) /\
  ((forall p, zone <> (p ++ ".")%string) -> search_term zone = zone).
Proof.
  intros Hz N. repeat split.
  - apply issued_app.
    destruct rev; unfold GetZone, accept.
    + rewrite MainGo_GetZone_run by assumption. rewrite N. cbv zeta.
      repeat destruct_scrutinee; reflexivity.
    + rewrite Part000_GetZone_run by assumption. rewrite N. cbv zeta.
      repeat destruct_scrutinee; reflexivity.
  - intros p ->. apply TrimSuffix_app.
  - apply TrimSuffix_not_suffix.
Qed.

(** C9, on [src/main.go].  Present of this revision, called with a nil
    request, returns no error: it panics, on the dereference of the request
    or, with no API key, in [loadConfig]. *)
Theorem MainGo_Present_nil_panics (st : State) :
  MainGo.Present None st
  = (Panic (if String.eqb ApiKey "" then "API_KEY must be specified"
            else nil_dereference), st).
Proof.
  cbv beta iota delta [MainGo.Present MainGo.loadConfig bind panic ret deref].
  destruct (String.eqb ApiKey ""); reflexivity.
Qed.

(** The other revision does what C9 says. *)
Lemma Part000_Present_nil_error (st : State) :
  Part000.Present None st
  = (Val (Some (errorString "challenge request cannot be nil")), st).
Proof. reflexivity. Qed.

End LookupClaims.

(** ** The relative hostname *)

(** C5, as amended.  The relative hostname is the name with the zone
    stripped when the zone is a suffix of it, and then with one trailing dot
    stripped when one is left; when the zone is no suffix of the name the
    zone is not stripped, and the trailing dot of the name still is. *)
Theorem hostname_strips_zone_then_dot (fqdn zone : string) :
  (forall p q, fqdn = (p ++ zone)%string -> p = (q ++ ".")%string ->
     hostname fqdn zone = q) /\
  (forall p, fqdn = (p ++ zone)%string ->
     (forall q, p <> (q ++ ".")%string) ->
     hostname fqdn zone = p) /\
  ((forall p, fqdn <> (p ++ zone)%string) ->
   forall q, fqdn = (q ++ ".")%string -> hostname fqdn zone = q) /\
  ((forall p, fqdn <> (p ++ zone)%string) ->
   (forall q, fqdn <> (q ++ ".")%string) ->
   hostname fqdn zone = fqdn).
Proof.
  unfold hostname. repeat split.
  - intros p q -> ->. rewrite TrimSuffix_app. apply TrimSuffix_app.
  - intros p -> Hq. rewrite TrimSuffix_app. now apply TrimSuffix_not_suffix.
  - intros Hp q ->. rewrite (TrimSuffix_not_suffix _ _ Hp).
    apply TrimSuffix_app.
  - intros Hp Hq. rewrite (TrimSuffix_not_suffix _ _ Hp).
    now apply TrimSuffix_not_suffix.
Qed.

(** ** The theorems at work on the scenarios *)

Import Scenario.

(** Scenario C: of two records named "_acme-challenge", CleanUp with key
    "tok2" deletes the second only. *)
Lemma CleanUp_deletes_only_first_match_witness :
  In (delete_request "secret" 42 102)
     (issued (@CleanUp provider part_000 (Some requestC))
        (@start provider [ok "zone:tok1,tok2"; ok ""])) /\
  is_delete (delete_request "secret" 42 102) = true /\
  filter is_delete
    (issued (@CleanUp provider part_000 (Some requestC))
       (@start provider [ok "zone:tok1,tok2"; ok ""]))
  = [delete_request "secret" 42 102].
Proof.
  assert (Hin : In (delete_request "secret" 42 102)
                  (issued (@CleanUp provider part_000 (Some requestC))
                     (@start provider [ok "zone:tok1,tok2"; ok ""])))
    by (vm_compute; auto).
  split; [exact Hin | split; [reflexivity|]].
  destruct (@CleanUp_deletes_only_first_match provider part_000
              (Some requestC) (@start provider [ok "zone:tok1,tok2"; ok ""])
              (delete_request "secret" 42 102) Hin eq_refl)
    as (c & zd & st1 & item & rest & before & r & after & _ & _ & _ & _ & _
        & _ & _ & _ & _ & Hf & _).
  exact Hf.
Defined.

Lemma Present_scenario_A_witness :
  @ApiKey provider <> "" /\
  sent (snd (@Present provider main_go (Some requestA)
               (@start provider [ok "zone:tok1,tok2"; ok "{}"])))
  = [searched main_go;
     create_request "secret" 42
       [("Type", JSON.Int 3); ("Ttl", JSON.Int 10);
        ("Value", JSON.Str "tok1"); ("Name", JSON.Str "_acme-challenge");
        ("Disabled", JSON.Bool false)]] /\
  sent (snd (@Present provider part_000 (Some requestA)
               (@start provider [ok "zone:tok1,tok2"; ok "{}"])))
  = [searched part_000;
     create_request "secret" 42
       [("Type", JSON.Int 3); ("Ttl", JSON.Int 10);
        ("Value", JSON.Str "tok1"); ("Name", JSON.Str "_acme-challenge")]].
Proof.
  split; [discriminate|]. split.
  - destruct (@Present_scenario_A provider main_go
                (@start provider [ok "zone:tok1,tok2"; ok "{}"])
                (@mkState provider [ok "{}"] [searched main_go])
                (zone_of [www; tok1; tok2])
                (mkItem 42 "example.com" [www; tok1; tok2]) []
                ltac:(discriminate) eq_refl eq_refl eq_refl)
      as (_ & body & Hsent & -> & _).
    exact Hsent.
  - destruct (@Present_scenario_A provider part_000
                (@start provider [ok "zone:tok1,tok2"; ok "{}"])
                (@mkState provider [ok "{}"] [searched part_000])
                (zone_of [www; tok1; tok2])
                (mkItem 42 "example.com" [www; tok1; tok2]) []
                ltac:(discriminate) eq_refl eq_refl eq_refl)
      as (_ & body & Hsent & -> & _).
    exact Hsent.
Defined.

(** Scenario B on [src/main.go]: the search returns no zone, and both entry
    points panic. *)
Lemma MainGo_zero_items_panic_witness :
  @zone_search provider "accept" "example.com."
    (@start provider [ok "zone:none"]) no_zone
    (@mkState provider [] [searched main_go]) /\
  @MainGo.Present provider (Some requestA) (@start provider [ok "zone:none"])
  = (Panic "runtime error: index out of range [0] with length 0",
     @mkState provider [] [searched main_go]) /\
  @MainGo.CleanUp provider (Some requestA) (@start provider [ok "zone:none"])
  = (Panic "runtime error: index out of range [0] with length 0",
     @mkState provider [] [searched main_go]).
Proof.
  assert (S : @zone_search provider "accept" "example.com."
                (@start provider [ok "zone:none"]) no_zone
                (@mkState provider [] [searched main_go])).
  { split; [discriminate|]. split; [reflexivity|].
    exists {| StatusCode := 200; ReadAll := ("zone:none", None) |}, [],
      "zone:none".
    repeat split; reflexivity. }
  split; [exact S|].
  destruct (@MainGo_zero_items_panic provider requestA
              (@start provider [ok "zone:none"])
              (@mkState provider [] [searched main_go]) no_zone
              ltac:(discriminate) S eq_refl) as (P & C & _).
  split; [exact P | exact C].
Defined.

(** Scenario A on [src/unnamed/part_000]: the body that goes out has four
    members, and Disabled is not one of them. *)
Lemma Part000_Present_body_lacks_Disabled_witness :
  In (create_request "secret" 42
        [("Type", JSON.Int 3); ("Ttl", JSON.Int 10);
         ("Value", JSON.Str "tok1"); ("Name", JSON.Str "_acme-challenge")])
     (issued (@Part000.Present provider (Some requestA))
        (@start provider [ok "zone:tok1,tok2"; ok "{}"])) /\
  exists body,
    Some [("Type", JSON.Int 3); ("Ttl", JSON.Int 10);
          ("Value", JSON.Str "tok1"); ("Name", JSON.Str "_acme-challenge")]
    = Some body /\
    ~ In "Disabled" (JSON.keys body) /\
    ~ In "Id" (JSON.keys body) /\
    incl (JSON.keys body) ["Type"; "Ttl"; "Value"; "Name"].
Proof.
  assert (Hin : In (create_request "secret" 42
        [("Type", JSON.Int 3); ("Ttl", JSON.Int 10);
         ("Value", JSON.Str "tok1"); ("Name", JSON.Str "_acme-challenge")])
     (issued (@Part000.Present provider (Some requestA))
        (@start provider [ok "zone:tok1,tok2"; ok "{}"])))
    by (vm_compute; auto).
  split; [exact Hin|].
  exact (@Part000_Present_body_lacks_Disabled provider requestA
           (@start provider [ok "zone:tok1,tok2"; ok "{}"]) _ Hin eq_refl).
Defined.

(** [GetZone] of [src/main.go] on the three failures: a send that times
    out, a body cut short, a body that does not decode. *)
Lemma MainGo_GetZone_drops_errors_witness :
  "example.com." <> "" /\
  @MainGo.GetZone provider "example.com." (mkConfig "secret")
    (@start provider [Failed None timeout])
  = (Panic nil_dereference, @mkState provider [] [searched main_go]) /\
  @MainGo.GetZone provider "example.com." (mkConfig "secret")
    (@start provider [cut_short "zone:tok1"])
  = (Val (zone_of [www; tok1], None), @mkState provider [] [searched main_go]) /\
  @MainGo.GetZone provider "example.com." (mkConfig "secret")
    (@start provider [ok "oops"])
  = (Val (ZoneResponse_zero, None), @mkState provider [] [searched main_go]).
Proof.
  split; [discriminate|]. split; [|split].
  - destruct (@MainGo_GetZone_drops_errors provider "example.com."
                (mkConfig "secret") (@start provider [Failed None timeout])
                ltac:(discriminate) eq_refl)
      as (Hsend & _).
    exact (Hsend timeout eq_refl).
  - destruct (@MainGo_GetZone_drops_errors provider "example.com."
                (mkConfig "secret") (@start provider [cut_short "zone:tok1"])
                ltac:(discriminate) eq_refl)
      as (_ & Hread & _).
    exact (Hread {| StatusCode := 200;
                    ReadAll := ("zone:tok1", Some unexpected_EOF) |}
             "zone:tok1" unexpected_EOF eq_refl eq_refl).
  - destruct (@MainGo_GetZone_drops_errors provider "example.com."
                (mkConfig "secret") (@start provider [ok "oops"])
                ltac:(discriminate) eq_refl)
      as (_ & _ & Hdecode & _).
    exact (Hdecode {| StatusCode := 200; ReadAll := ("oops", None) |} "oops"
             ZoneResponse_zero syntax_error eq_refl eq_refl eq_refl).
Defined.

(** A zone with "tok1" only, and CleanUp for "tok2": nothing to delete,
    the first time and the second. *)
Lemma CleanUp_without_match_is_noop_witness :
  @CleanUp (steady "zone:tok1") main_go (Some requestC)
    (@start (steady "zone:tok1") tt)
  = (Val None, @mkState (steady "zone:tok1") tt [searched main_go]) /\
  exists st2,
    @CleanUp (steady "zone:tok1") main_go (Some requestC)
      (@mkState (steady "zone:tok1") tt [searched main_go])
    = (Val None, st2).
Proof.
  assert (N : forall r, In r [www; tok1] ->
                ~ (Record_Type r = 3 /\ Record_Name r = hostname_of requestC
                   /\ Record_Value r = Key requestC)).
  { intros r [<- | [<- | []]] (_ & _ & Hv); discriminate Hv. }
  destruct (@CleanUp_without_match_is_noop (steady "zone:tok1") main_go
              requestC (@start (steady "zone:tok1") tt)
              (@mkState (steady "zone:tok1") tt [searched main_go])
              (zone_of [www; tok1])
              (mkItem 42 "example.com" [www; tok1]) []
              ltac:(discriminate) eq_refl eq_refl N)
    as (E & _ & Again).
  split; [exact E|].
  destruct (Again (fun _ _ _ => eq_refl)) as (_ & st2 & E2 & _).
  exists st2. exact E2.
Defined.

(** The first record that matches carries identifier 0: no DELETE, though
    a second record matches too. *)
Lemma CleanUp_zero_ID_is_not_found_witness :
  Record_ID tok0 = 0 /\
  @CleanUp provider part_000 (Some requestC)
    (@start provider [ok "zone:tok0,tok2"; ok ""])
  = (Val None, @mkState provider [ok ""] [searched part_000]).
Proof.
  split; [reflexivity|].
  exact (proj1 (@CleanUp_zero_ID_is_not_found provider part_000 requestC
                  (@start provider [ok "zone:tok0,tok2"; ok ""])
                  (@mkState provider [ok ""] [searched part_000])
                  (zone_of [tok0; tok2])
                  (mkItem 42 "example.com" [tok0; tok2]) []
                  [] [tok2] tok0
                  ltac:(discriminate) eq_refl eq_refl eq_refl
                  (fun _ (F : False) => match F with end)
                  eq_refl eq_refl eq_refl eq_refl)).
Defined.

(** C5 as the claim states it fails: the zone "example.org." is no suffix
    of "_acme-challenge.example.com.", and the relative hostname is not that
    name unstripped; its trailing dot is gone. *)
Lemma hostname_not_unstripped_counterexample :
  (forall p, "_acme-challenge.example.com." <> (p ++ "example.org.")%string) /\
  hostname "_acme-challenge.example.com." "example.org."
  = "_acme-challenge.example.com" /\
  hostname "_acme-challenge.example.com." "example.org."
  <> "_acme-challenge.example.com.".
Proof.
  split; [apply not_suffix; reflexivity|].
  split; [reflexivity|].
  intros E. vm_compute in E. discriminate E.
Qed.

Lemma hostname_strips_zone_then_dot_witness :
  hostname "_acme-challenge.example.com." "example.com." = "_acme-challenge" /\
  hostname "example.com" "example.com" = "" /\
  hostname "_acme-challenge.example.com." "example.org."
  = "_acme-challenge.example.com" /\
  hostname "www" "example.com." = "www".
Proof.
  split; [|split; [|split]].
  - exact (proj1 (hostname_strips_zone_then_dot
                    "_acme-challenge.example.com." "example.com.")
             "_acme-challenge." "_acme-challenge" eq_refl eq_refl).
  - apply (proj1 (proj2 (hostname_strips_zone_then_dot
                           "example.com" "example.com")) "" eq_refl).
    apply not_suffix. reflexivity.
  - apply (proj1 (proj2 (proj2 (hostname_strips_zone_then_dot
                                  "_acme-challenge.example.com."
                                  "example.org.")))
             (not_suffix "_acme-challenge.example.com." "example.org." eq_refl)
             "_acme-challenge.example.com" eq_refl).
  - apply (proj2 (proj2 (proj2 (hostname_strips_zone_then_dot
                                  "www" "example.com."))));
      apply not_suffix; reflexivity.
Defined.

(* ================================================================= *)
(** * Beyond the claims: the rest of the solver *)

(** ** The traffic of the two entry points *)

Section Traffic.
Context `{Env}.

(** A lookup that returned a zone has sent the search. *)
Lemma GetZone_ok_sent (rev : Revision) (zone : string) (st st1 : State)
    (zoneData : ZoneResponse) :
  GetZone rev zone config st = (Val (zoneData, None), st1) ->
  sent st1 = sent st ++ [search_request (accept rev) ApiKey (search_term zone)].
Proof.
  intros G.
  destruct (string_dec zone "") as [-> | Hz].
  { destruct rev; discriminate G. }
  destruct rev; unfold GetZone, accept in *.
  - rewrite MainGo_GetZone_run in G by assumption. revert G. cbv zeta.
    repeat destruct_scrutinee; intros [= <- <-] || intros [=]; reflexivity.
  - rewrite Part000_GetZone_run in G by assumption. revert G. cbv zeta.
    repeat destruct_scrutinee; intros [= <- <-] || intros [=]; reflexivity.
Qed.

Lemma GetZone_sent_cases (rev : Revision) (zone : string) (st st1 : State)
    (r : result (ZoneResponse * error)) :
  GetZone rev zone config st = (r, st1) ->
  sent st1 = sent st ++ [] \/
  sent st1 = sent st ++ [search_request (accept rev) ApiKey (search_term zone)].
Proof.
  intros G. destruct (GetZone_log rev zone config st) as [L | L];
    rewrite G in L; cbn [snd] in L; rewrite L; [left | right].
  - now rewrite app_nil_r.
  - reflexivity.
Qed.

(** What [Present] sends: nothing, the search, or the search and then the
    create request. *)
Lemma Present_issued_cases (rev : Revision) (ch : option ChallengeRequest)
    (st : State) :
  issued (Present rev ch) st = [] \/
  exists c,
    ch = Some c /\
    (issued (Present rev ch) st
     = [search_request (accept rev) ApiKey (search_term (ResolvedZone c))] \/
     exists zoneID,
       issued (Present rev ch) st
       = [search_request (accept rev) ApiKey (search_term (ResolvedZone c));
          create_request ApiKey zoneID (payload rev c)]).
Proof.
  destruct ch as [c|].
  2:{ left. apply issued_app. rewrite app_nil_r.
      destruct rev; [|reflexivity].
      cbv beta iota delta [Present MainGo.Present MainGo.loadConfig bind panic
                           ret deref].
      destruct (String.eqb ApiKey ""); reflexivity. }
  destruct (String.eqb ApiKey "") eqn:K.
  { left. apply issued_app. rewrite app_nil_r.
    rewrite Present_without_key by (assumption || discriminate). reflexivity. }
  pose proof (Present_run rev c st K) as E.
  destruct (GetZone rev (ResolvedZone c) config st)
    as [[[zd [e|]]|msg] st1] eqn:G.
  - destruct (GetZone_sent_cases _ _ _ _ _ G) as [L | L];
      rewrite (issued_eq _ _ _ _ _ E L); [now left | right].
    exists c. split; [reflexivity | now left].
  - pose proof (GetZone_ok_sent _ _ _ _ _ G) as L.
    right. exists c. split; [reflexivity|].
    destruct (Items zd) as [|item rest].
    { left. now rewrite (issued_eq _ _ _ _ _ E L). }
    cbv zeta in E.
    destruct (NewRequest_error "PUT" _) in E.
    { left. now rewrite (issued_eq _ _ _ _ _ E L). }
    right. exists (Item_ID item).
    revert E. repeat destruct_scrutinee; intros E;
      apply (issued_eq _ _ _ _ _ E); cbn [sent]; rewrite L;
      rewrite <- app_assoc; reflexivity.
  - destruct (GetZone_sent_cases _ _ _ _ _ G) as [L | L];
      rewrite (issued_eq _ _ _ _ _ E L); [now left | right].
    exists c. split; [reflexivity | now left].
Qed.

(** What [CleanUp] sends: nothing, the search, or the search and then the
    DELETE. *)
Lemma CleanUp_issued_cases (rev : Revision) (ch : option ChallengeRequest)
    (st : State) :
  issued (CleanUp rev ch) st = [] \/
  exists c,
    ch = Some c /\
    (issued (CleanUp rev ch) st
     = [search_request (accept rev) ApiKey (search_term (ResolvedZone c))] \/
     exists zoneID recordID,
       issued (CleanUp rev ch) st
       = [search_request (accept rev) ApiKey (search_term (ResolvedZone c));
          delete_request ApiKey zoneID recordID]).
Proof.
  pose proof (CleanUp_run rev ch st) as E.
  destruct (String.eqb ApiKey "").
  { left. apply (issued_eq _ _ _ _ _ E). now rewrite app_nil_r. }
  destruct ch as [c|].
  2:{ left. apply (issued_eq _ _ _ _ _ E). now rewrite app_nil_r. }
  destruct (GetZone rev (ResolvedZone c) config st)
    as [[[zd [e|]]|msg] st1] eqn:G.
  - destruct (GetZone_sent_cases _ _ _ _ _ G) as [L | L];
      rewrite (issued_eq _ _ _ _ _ E L); [now left | right].
    exists c. split; [reflexivity | now left].
  - pose proof (GetZone_ok_sent _ _ _ _ _ G) as L.
    right. exists c. split; [reflexivity|].
    destruct (Items zd) as [|item rest].
    { left. now rewrite (issued_eq _ _ _ _ _ E L). }
    cbv zeta in E.
    destruct (_ =? 0) in E.
    { left. now rewrite (issued_eq _ _ _ _ _ E L). }
    destruct (NewRequest_error "DELETE" _) in E.
    { left. now rewrite (issued_eq _ _ _ _ _ E L). }
    right. eexists _, _.
    apply (issued_eq _ _ _ _ _ E); cbn [sent]; rewrite L;
      rewrite <- app_assoc; reflexivity.
  - destruct (GetZone_sent_cases _ _ _ _ _ G) as [L | L];
      rewrite (issued_eq _ _ _ _ _ E L); [now left | right].
    exists c. split; [reflexivity | now left].
Qed.

(** X6.  Whatever the request and the provider, a run of Present, in either
    revision, sends at most two requests: the zone search first and then
    at most one PUT; it never sends a DELETE, and a PUT never goes out
    without the search before it. *)
Theorem Present_searches_then_creates (rev : Revision)
    (ch : option ChallengeRequest) (st : State) :
  (List.length (issued (Present rev ch) st) <= 2)%nat /\
  filter is_delete (issued (Present rev ch) st) = [] /\
  (forall req, In req (issued (Present rev ch) st) -> mutating req = true ->
     exists search,
       Method search = "GET" /\
       issued (Present rev ch) st = [search; req]).
Proof.
  destruct (Present_issued_cases rev ch st)
    as [E | (c & -> & [E | (zoneID & E)])]; rewrite E.
  - repeat split; cbn; [lia | intros req []].
  - repeat split; cbn; [lia|].
    intros req [<- | []] M. discriminate M.
  - repeat split; cbn; [lia|].
    intros req [<- | [<- | []]] M; [discriminate M|].
    eexists. split; [|reflexivity]. reflexivity.
Qed.

(** X7.  Whatever the request and the provider, a run of CleanUp, in either
    revision, sends at most two requests: the zone search first and then
    at most one DELETE; it never sends a PUT, and a DELETE never goes out
    without the search before it. *)
Theorem CleanUp_searches_then_deletes (rev : Revision)
    (ch : option ChallengeRequest) (st : State) :
  (List.length (issued (CleanUp rev ch) st) <= 2)%nat /\
  filter (fun req => String.eqb (Method req) "PUT")
    (issued (CleanUp rev ch) st) = [] /\
  (forall req, In req (issued (CleanUp rev ch) st) -> mutating req = true ->
     exists search,
       Method search = "GET" /\
       issued (CleanUp rev ch) st = [search; req]).
Proof.
  destruct (CleanUp_issued_cases rev ch st)
    as [E | (c & -> & [E | (zoneID & recordID & E)])]; rewrite E.
  - repeat split; cbn; [lia | intros req []].
  - repeat split; cbn; [lia|].
    intros req [<- | []] M. discriminate M.
  - repeat split; cbn; [lia|].
    intros req [<- | [<- | []]] M; [discriminate M|].
    eexists. split; [|reflexivity]. reflexivity.
Qed.

(** X8.  Every request that Present or CleanUp sends, in either revision,
    carries the API key of the process in the header AccessKey, and an
    Accept header for JSON. *)
Theorem requests_carry_API_key (rev : Revision)
    (ch : option ChallengeRequest) (st : State) (req : Request) :
  In req (issued (Present rev ch) st) \/ In req (issued (CleanUp rev ch) st) ->
  In ("AccessKey", ApiKey) (Header req) /\
  exists accept_key,
    In (accept_key, "application/json") (Header req) /\
    (accept_key = "Accept" \/ accept_key = "accept").
Proof.
  assert (S : forall z,
            In ("AccessKey", ApiKey)
              (Header (search_request (accept rev) ApiKey z)) /\
            exists k, In (k, "application/json")
                        (Header (search_request (accept rev) ApiKey z)) /\
                      (k = "Accept" \/ k = "accept")).
  { intros z. split; [cbn; auto|].
    exists (accept rev). split; [cbn; auto|]. destruct rev; auto. }
  intros [Hin | Hin].
  - destruct (Present_issued_cases rev ch st)
      as [E | (c & -> & [E | (zoneID & E)])]; rewrite E in Hin.
    + destruct Hin.
    + destruct Hin as [<- | []]. apply S.
    + destruct Hin as [<- | [<- | []]]; [apply S|].
      split; [cbn; auto|]. exists "Accept". split; [cbn; auto | auto].
  - destruct (CleanUp_issued_cases rev ch st)
      as [E | (c & -> & [E | (zoneID & recordID & E)])]; rewrite E in Hin.
    + destruct Hin.
    + destruct Hin as [<- | []]. apply S.
    + destruct Hin as [<- | [<- | []]]; [apply S|].
      split; [cbn; auto|]. exists "accept". split; [cbn; auto | auto].
Qed.

End Traffic.

(** ** The outcome of Present *)

Section PresentOutcome.
Context `{Env}.

(** X9.  Once the lookup has returned a zone and the PUT has been answered
    with a body that reads without error, Present, in either revision,
    judges by the status alone: 400 and above gives the error "API request
    failed with status <status>: <body>", anything below gives nil; the
    body of an answer below 400 is not looked at.  (The API key is set and
    [http.NewRequest] accepts the URL.) *)
Theorem Present_judges_by_status (rev : Revision) (c : ChallengeRequest)
    (st st1 : State) (zoneData : ZoneResponse) (item : Item)
    (rest : list Item) (resp : Response) (body : string) :
  ApiKey <> "" ->
  GetZone rev (ResolvedZone c) config st = (Val (zoneData, None), st1) ->
  Items zoneData = item :: rest ->
  NewRequest_error "PUT"
    (URL (create_request ApiKey (Item_ID item) (payload rev c))) = None ->
  fst (Do (create_request ApiKey (Item_ID item) (payload rev c)) (world st1))
  = Responded resp ->
  ReadAll resp = (body, None) ->
  fst (Present rev (Some c) st)
  = Val (if 400 <=? StatusCode resp
         then Some (errorString ("API request failed with status "
                                 ++ itoa (StatusCode resp) ++ ": " ++ body))
         else None).
Proof.
  intros K G I N D R. apply String.eqb_neq in K.
  rewrite (Present_run rev c st K), G, I. cbv zeta. rewrite N, D, R.
  destruct (400 <=? StatusCode resp); reflexivity.
Qed.

(** X10.  When Present, in either revision, returns nil, the record has been
    submitted and accepted: the lookup returned a zone, the last request of
    the run is the PUT for the first item of that zone with the payload of
    the request, and the provider answered it with a status below 400. *)
Theorem Present_nil_means_created (rev : Revision)
    (ch : option ChallengeRequest) (st st' : State) :
  Present rev ch st = (Val None, st') ->
  exists c zoneData st1 item rest resp,
    ch = Some c /\
    GetZone rev (ResolvedZone c) config st = (Val (zoneData, None), st1) /\
    Items zoneData = item :: rest /\
    sent st'
    = sent st1 ++ [create_request ApiKey (Item_ID item) (payload rev c)] /\
    fst (Do (create_request ApiKey (Item_ID item) (payload rev c)) (world st1))
    = Responded resp /\
    StatusCode resp < 400.
Proof.
  intros E.
  destruct ch as [c|].
  2:{ destruct rev; [|discriminate E].
      revert E.
      cbv beta iota delta [Present MainGo.Present MainGo.loadConfig bind panic
                           ret deref].
      destruct (String.eqb ApiKey ""); discriminate. }
  destruct (String.eqb ApiKey "") eqn:K.
  { rewrite Present_without_key in E by (assumption || discriminate).
    discriminate E. }
  rewrite (Present_run rev c st K) in E.
  destruct (GetZone rev (ResolvedZone c) config st)
    as [[[zd [e|]]|msg] st1] eqn:G; try discriminate E.
  destruct (Items zd) as [|item rest] eqn:I; [discriminate E|].
  cbv zeta in E.
  destruct (NewRequest_error "PUT" _) in E; [discriminate E|].
  destruct (fst (Do _ (world st1))) as [resp | resp e] eqn:D;
    [|discriminate E].
  destruct (ReadAll resp) as [body [e|]]; [discriminate E|].
  destruct (400 <=? StatusCode resp) eqn:S; [discriminate E|].
  injection E as <-.
  exists c, zd, st1, item, rest, resp.
  repeat split; try reflexivity; try assumption.
  now apply Z.leb_gt.
Qed.

(** X11.  Each failure between the lookup and the answer comes back from
    Present, in either revision, wrapped in its context and with the
    failure as its cause: a URL that [http.NewRequest] refuses, a send that
    fails, a body that cannot be read.  In the first case nothing has been
    sent after the search. *)
Theorem Present_wraps_failures (rev : Revision) (c : ChallengeRequest)
    (st st1 : State) (zoneData : ZoneResponse) (item : Item)
    (rest : list Item) :
  ApiKey <> "" ->
  GetZone rev (ResolvedZone c) config st = (Val (zoneData, None), st1) ->
  Items zoneData = item :: rest ->
  let req := create_request ApiKey (Item_ID item) (payload rev c) in
  (forall e, NewRequest_error "PUT" (URL req) = Some e ->
     Present rev (Some c) st
     = (Val (Some (wrapError ("failed to create request: " ++ Error_msg e) e)),
        st1)) /\
  (forall resp e,
     NewRequest_error "PUT" (URL req) = None ->
     fst (Do req (world st1)) = Failed resp e ->
     fst (Present rev (Some c) st)
     = Val (Some (wrapError ("failed to send request: " ++ Error_msg e) e))) /\
  (forall resp body e,
     NewRequest_error "PUT" (URL req) = None ->
     fst (Do req (world st1)) = Responded resp ->
     ReadAll resp = (body, Some e) ->
     fst (Present rev (Some c) st)
     = Val (Some (wrapError ("failed to read response: " ++ Error_msg e) e))).
Proof.
  intros K G I req. apply String.eqb_neq in K.
  rewrite (Present_run rev c st K), G, I. cbv zeta. fold req.
  repeat split.
  - intros e ->. reflexivity.
  - intros resp e -> ->. reflexivity.
  - intros resp body e -> -> ->. reflexivity.
Qed.

End PresentOutcome.

(** ** The outcome of CleanUp *)

Section CleanUpOutcome.
Context `{Env}.

(** X12.  When the first record that matches carries an identifier other
    than 0, CleanUp, in either revision, sends the DELETE for that record of
    the zone's first item and returns what the transport returns: nil as
    soon as the provider answers, whatever the status of the answer, and the
    transport's own error, not wrapped, when the send fails.  (The API key
    is set and [http.NewRequest] accepts the URL.) *)
Theorem CleanUp_deletes_and_ignores_status (rev : Revision)
    (c : ChallengeRequest) (st st1 : State) (zoneData : ZoneResponse)
    (item : Item) (rest : list Item) (before after : list Record)
    (r : Record) :
  ApiKey <> "" ->
  GetZone rev (ResolvedZone c) config st = (Val (zoneData, None), st1) ->
  Items zoneData = item :: rest ->
  Item_Records item = before ++ r :: after ->
  (forall r', In r' before ->
     ~ (Record_Type r' = 3 /\ Record_Name r' = hostname_of c
        /\ Record_Value r' = Key c)) ->
  Record_Type r = 3 ->
  Record_Name r = hostname_of c ->
  Record_Value r = Key c ->
  Record_ID r <> 0 ->
  NewRequest_error "DELETE"
    (URL (delete_request ApiKey (Item_ID item) (Record_ID r))) = None ->
  let req := delete_request ApiKey (Item_ID item) (Record_ID r) in
  sent (snd (CleanUp rev (Some c) st)) = sent st1 ++ [req] /\
  (forall resp, fst (Do req (world st1)) = Responded resp ->
     fst (CleanUp rev (Some c) st) = Val None) /\
  (forall resp e, fst (Do req (world st1)) = Failed resp e ->
     fst (CleanUp rev (Some c) st) = Val (Some e)).
Proof.
  intros K G I Hrec Hb Ht Hn Hv Hid N req.
  assert (R : range_records (Item_Records item) (hostname_of c) (Key c) 0
              = Record_ID r).
  { rewrite range_records_find, Hrec, (find_first _ before after r).
    - reflexivity.
    - intros r' Hr'. apply matches_false. now apply Hb.
    - apply matches_spec. auto. }
  apply String.eqb_neq in K.
  rewrite CleanUp_run, K, G, I. cbv zeta. rewrite R.
  apply Z.eqb_neq in Hid. rewrite Hid, N. fold req.
  repeat split.
  - intros resp ->. reflexivity.
  - intros resp e ->. reflexivity.
Qed.

(** X13.  With no API key in the process, CleanUp with any request and
    Present with any request that is not nil panic in [loadConfig], in
    either revision, before anything is sent. *)
Theorem missing_API_key_panics (rev : Revision) (ch : option ChallengeRequest)
    (st : State) :
  ApiKey = "" ->
  CleanUp rev ch st = (Panic "API_KEY must be specified", st) /\
  (ch <> None ->
   Present rev ch st = (Panic "API_KEY must be specified", st)).
Proof.
  intros K. apply String.eqb_eq in K. split.
  - rewrite CleanUp_run, K. reflexivity.
  - intros N. now apply Present_without_key.
Qed.

(** X14.  CleanUp has no guard against a nil request in either revision:
    with the API key set it panics on the dereference of the request,
    having sent nothing.  Present of [src/unnamed/part_000] returns its
    error for a nil request without reading the configuration, so even with
    no API key. *)
Theorem nil_request_edge (rev : Revision) (st : State) :
  (ApiKey <> "" -> CleanUp rev None st = (Panic nil_dereference, st)) /\
  Part000.Present None st
  = (Val (Some (errorString "challenge request cannot be nil")), st).
Proof.
  split; [|reflexivity].
  intros K. apply String.eqb_neq in K.
  rewrite CleanUp_run, K. reflexivity.
Qed.

End CleanUpOutcome.

(** ** What [src/unnamed/part_000] adds *)

Section Part000Safety.
Context `{Env}.

(** X15.  [GetZone] of [src/unnamed/part_000] returns a nil error only with
    a zone in hand: the response it returns then has at least one item, and
    with any error it returns the zero response. *)
Theorem Part000_GetZone_nil_error_has_zone (zone : string)
    (cfg : bunnyNetDNSConfig) (st st1 : State) (data : ZoneResponse)
    (err : error) :
  Part000.GetZone zone cfg st = (Val (data, err), st1) ->
  match err with
  | None => Items data <> []
  | Some _ => data = ZoneResponse_zero
  end.
Proof.
  intros G.
  destruct (string_dec zone "") as [-> | Hz]; [discriminate G|].
  rewrite Part000_GetZone_run in G by assumption. revert G. cbv zeta.
  destruct (NewRequest_error "GET" _); [now intros [= <- <- <-]|].
  destruct (fst (Do _ (world st))) as [resp | resp e];
    [|now intros [= <- <- <-]].
  destruct (ReadAll resp) as [body [e|]]; [now intros [= <- <- <-]|].
  destruct (json_Unmarshal body) as [d [e|]]; [now intros [= <- <- <-]|].
  destruct (len_list (Items d) =? 0) eqn:L; intros [= <- <- <-];
    [reflexivity|].
  intros E. rewrite E in L. discriminate L.
Qed.

Lemma Part000_GetZone_ok_items (zone : string) (cfg : bunnyNetDNSConfig)
    (st st1 : State) (data : ZoneResponse) :
  zone <> "" ->
  Part000.GetZone zone cfg st = (Val (data, None), st1) ->
  exists item rest, Items data = item :: rest.
Proof.
  intros Hz G.
  rewrite Part000_GetZone_run in G by assumption. revert G. cbv zeta.
  destruct (NewRequest_error "GET" _); [discriminate|].
  destruct (fst (Do _ (world st))) as [resp | resp e]; [|discriminate].
  destruct (ReadAll resp) as [body [e|]]; [discriminate|].
  destruct (json_Unmarshal body) as [d [e|]]; [discriminate|].
  destruct (Items d) as [|item rest] eqn:I; cbn [len_list List.length];
    [discriminate|].
  intros [= <- <-]. rewrite I. now exists item, rest.
Qed.

Lemma Part000_GetZone_no_panic (zone : string) (cfg : bunnyNetDNSConfig)
    (st st1 : State) (msg : string) :
  zone <> "" -> Part000.GetZone zone cfg st <> (Panic msg, st1).
Proof.
  intros Hz. rewrite Part000_GetZone_run by assumption. cbv zeta.
  repeat destruct_scrutinee; discriminate.
Qed.

(** X16.  With the API key set and a request whose zone name is not empty,
    neither entry point of [src/unnamed/part_000] panics, whatever the
    provider does: each returns nil or an error. *)
Theorem Part000_entry_points_do_not_panic (c : ChallengeRequest) (st : State) :
  ApiKey <> "" ->
  ResolvedZone c <> "" ->
  (exists err, fst (Part000.Present (Some c) st) = Val err) /\
  (exists err, fst (Part000.CleanUp (Some c) st) = Val err).
Proof.
  intros K Hz. apply String.eqb_neq in K.
  split.
  - change (Part000.Present (Some c) st) with (Present part_000 (Some c) st).
    rewrite (Present_run part_000 c st K). unfold GetZone.
    destruct (Part000.GetZone (ResolvedZone c) config st)
      as [[[zd [e|]]|msg] st1] eqn:G.
    + eexists; reflexivity.
    + destruct (Part000_GetZone_ok_items _ _ _ _ _ Hz G) as (item & rest & ->).
      cbv zeta. repeat destruct_scrutinee; eexists; reflexivity.
    + now destruct (Part000_GetZone_no_panic _ config st st1 msg Hz).
  - change (Part000.CleanUp (Some c) st) with (CleanUp part_000 (Some c) st).
    rewrite CleanUp_run, K. unfold GetZone.
    destruct (Part000.GetZone (ResolvedZone c) config st)
      as [[[zd [e|]]|msg] st1] eqn:G.
    + eexists; reflexivity.
    + destruct (Part000_GetZone_ok_items _ _ _ _ _ Hz G) as (item & rest & ->).
      cbv zeta. repeat destruct_scrutinee; eexists; reflexivity.
    + now destruct (Part000_GetZone_no_panic _ config st st1 msg Hz).
Qed.

End Part000Safety.

(** ** The record on the wire and the record CleanUp looks for *)

Section RoundTrip.
Context `{Env}.






End RoundTrip.

(** ** The relative hostname, again *)

Lemma TrimSuffix_prefix (s z : string) :
  exists cut, s = (TrimSuffix s z ++ cut)%string.
Proof.
  unfold TrimSuffix. destruct (HasSuffix s z) eqn:E.
  - destruct (HasSuffix_inv _ _ E) as [p Hp].
    exists z. rewrite Hp at 1.
    f_equal. rewrite Hp. fold (TrimSuffix (p ++ z) z).
    assert (T := TrimSuffix_app p z). unfold TrimSuffix in T.
    rewrite HasSuffix_app in T. now rewrite T.
  - exists "". clear E. induction s as [|a s IH]; simpl; [reflexivity|].
    now rewrite <- IH.
Qed.

Lemma string_app_assoc (a b c : string) :
  ((a ++ b) ++ c = a ++ (b ++ c))%string.
Proof. induction a as [|x a IH]; simpl; [reflexivity | now rewrite IH]. Qed.

(** X20.  Whatever the name and the zone, the relative hostname is a prefix
    of the name: stripping only ever removes from the end, at most the zone
    and one dot. *)
Theorem hostname_is_prefix (fqdn zone : string) :
  exists cut,
    fqdn = (hostname fqdn zone ++ cut)%string /\
    (String.length cut <= String.length zone + 1)%nat.
Proof.
  unfold hostname, TrimSuffix at 1 2.
  destruct (HasSuffix fqdn zone) eqn:E1.
  - destruct (HasSuffix_inv _ _ E1) as [p ->].
    pose proof (TrimSuffix_app p zone) as T. unfold TrimSuffix in T.
    rewrite HasSuffix_app in T. rewrite T.
    destruct (HasSuffix p ".") eqn:E2.
    + destruct (HasSuffix_inv _ _ E2) as [q ->].
      pose proof (TrimSuffix_app q ".") as T2. unfold TrimSuffix in T2.
      rewrite HasSuffix_app in T2. rewrite T2.
      exists ("." ++ zone)%string. split.
      * now rewrite string_app_assoc.
      * simpl. lia.
    + exists zone. split; [reflexivity | lia].
  - destruct (HasSuffix fqdn ".") eqn:E2.
    + destruct (HasSuffix_inv _ _ E2) as [q ->].
      pose proof (TrimSuffix_app q ".") as T2. unfold TrimSuffix in T2.
      rewrite HasSuffix_app in T2. rewrite T2.
      exists ".". split; [reflexivity | simpl; lia].
    + exists "". split; [|simpl; lia].
      clear. induction fqdn as [|a s IH]; simpl; [reflexivity|].
      now rewrite <- IH.
Qed.

(** ** The further theorems at work *)

Import Coverage.

Lemma Part000_zero_items_error_witness :
  @Part000.Present provider (Some requestA) (@start provider [ok "zone:none"])
  = (Val (Some (wrapError
                  "failed to get zone ID: no DNS zone found for example.com"
                  (errorString "no DNS zone found for example.com"))),
     after_search part_000 []) /\
  filter mutating
    (issued (@Part000.CleanUp provider (Some requestA))
       (@start provider [ok "zone:none"])) = [].
Proof.
  assert (S : @zone_search provider "Accept" "example.com."
                (@start provider [ok "zone:none"]) no_zone
                (after_search part_000 [])).
  { split; [discriminate|]. split; [reflexivity|].
    exists {| StatusCode := 200; ReadAll := ("zone:none", None) |}, [],
      "zone:none".
    repeat split; reflexivity. }
  destruct (@Part000_zero_items_error provider requestA
              (@start provider [ok "zone:none"]) (after_search part_000 [])
              no_zone ltac:(discriminate) S eq_refl) as (P & _ & _ & M).
  split; [exact P | exact M].
Defined.

Lemma Part000_GetZone_wraps_errors_witness :
  @Part000.GetZone provider "example.com." (mkConfig "secret")
    (@start provider [Failed None timeout])
  = (Val (ZoneResponse_zero,
          Some (wrapError
                  ("failed to execute request: " ++ Error_msg timeout)
                  timeout)),
     after_search part_000 []) /\
  @Part000.GetZone provider "example.com." (mkConfig "secret")
    (@start provider [ok "oops"])
  = (Val (ZoneResponse_zero,
          Some (wrapError
                  ("failed to unmarshal response: " ++ Error_msg syntax_error)
                  syntax_error)),
     after_search part_000 []).
Proof.
  split.
  - destruct (@Part000_GetZone_wraps_errors provider "example.com."
                (mkConfig "secret") (@start provider [Failed None timeout])
                ltac:(discriminate) eq_refl) as (Hsend & _).
    exact (Hsend None timeout eq_refl).
  - destruct (@Part000_GetZone_wraps_errors provider "example.com."
                (mkConfig "secret") (@start provider [ok "oops"])
                ltac:(discriminate) eq_refl) as (_ & _ & Hdecode).
    exact (Hdecode {| StatusCode := 200; ReadAll := ("oops", None) |} "oops"
             ZoneResponse_zero syntax_error eq_refl eq_refl eq_refl).
Defined.

Lemma Part000_lookup_error_returned_witness :
  fst (@Part000.Present provider (Some requestA)
         (@start provider [Failed None timeout]))
  = Val (Some (wrapError
                 ("failed to get zone ID: failed to execute request: "
                  ++ Error_msg timeout)
                 (wrapError
                    ("failed to execute request: " ++ Error_msg timeout)
                    timeout))).
Proof.
  destruct (@Part000_lookup_error_returned provider requestA
              (@start provider [Failed None timeout])
              (after_search part_000 []) ZoneResponse_zero
              (wrapError ("failed to execute request: " ++ Error_msg timeout)
                 timeout)
              ltac:(discriminate) eq_refl) as (P & _).
  exact (f_equal fst P).
Defined.

Lemma GetZone_search_term_witness :
  issued (@GetZone provider main_go "example.com." (mkConfig "secret"))
    (@start provider [ok zone_body])
  = [searched main_go] /\
  issued (@GetZone provider part_000 "example.com" (mkConfig "secret"))
    (@start provider [ok zone_body])
  = [searched part_000].
Proof.
  split.
  - exact (proj1 (@GetZone_search_term provider main_go "example.com."
                    (mkConfig "secret") (@start provider [ok zone_body])
                    ltac:(discriminate) eq_refl)).
  - exact (proj1 (@GetZone_search_term provider part_000 "example.com"
                    (mkConfig "secret") (@start provider [ok zone_body])
                    ltac:(discriminate) eq_refl)).
Defined.

Lemma MainGo_Present_body_has_five_members_witness :
  In (createdA main_go)
     (issued (@MainGo.Present provider (Some requestA))
        (@start provider [ok zone_body; ok "{}"])) /\
  exists body,
    Body (createdA main_go) = Some body /\
    JSON.keys body = ["Type"; "Ttl"; "Value"; "Name"; "Disabled"].
Proof.
  assert (Hin : In (createdA main_go)
                  (issued (@MainGo.Present provider (Some requestA))
                     (@start provider [ok zone_body; ok "{}"])))
    by (vm_compute; auto).
  split; [exact Hin|].
  exact (@MainGo_Present_body_has_five_members provider requestA
           (@start provider [ok zone_body; ok "{}"]) _ Hin eq_refl).
Defined.

Lemma requests_carry_API_key_witness :
  In ("AccessKey", "secret") (Header (createdA part_000)) /\
  In ("AccessKey", "secret") (Header (delete_request "secret" 42 102)).
Proof.
  split.
  - refine (proj1 (@requests_carry_API_key provider part_000 (Some requestA)
                     (@start provider [ok zone_body; ok "{}"])
                     (createdA part_000) (or_introl _))).
    vm_compute. auto.
  - refine (proj1 (@requests_carry_API_key provider main_go (Some requestC)
                     (@start provider [ok zone_body; ok ""])
                     (delete_request "secret" 42 102) (or_intror _))).
    vm_compute. auto.
Defined.

(** Scenario D: the create call is answered with 500. *)
Lemma Present_judges_by_status_witness :
  fst (@Present provider part_000 (Some requestA)
         (@start provider [ok zone_body; internal_error]))
  = Val (Some (errorString
                 "API request failed with status 500: {Message:internal}")) /\
  fst (@Present provider main_go (Some requestA)
         (@start provider [ok zone_body; ok "anything"]))
  = Val None.
Proof.
  split.
  - exact (@Present_judges_by_status provider part_000 requestA
             (@start provider [ok zone_body; internal_error])
             (after_search part_000 [internal_error])
             (zone_of [www; tok1; tok2])
             (mkItem 42 "example.com" [www; tok1; tok2]) []
             {| StatusCode := 500; ReadAll := ("{Message:internal}", None) |}
             "{Message:internal}"
             ltac:(discriminate) eq_refl eq_refl eq_refl eq_refl eq_refl).
  - exact (@Present_judges_by_status provider main_go requestA
             (@start provider [ok zone_body; ok "anything"])
             (after_search main_go [ok "anything"])
             (zone_of [www; tok1; tok2])
             (mkItem 42 "example.com" [www; tok1; tok2]) []
             {| StatusCode := 200; ReadAll := ("anything", None) |}
             "anything"
             ltac:(discriminate) eq_refl eq_refl eq_refl eq_refl eq_refl).
Defined.

Lemma Present_nil_means_created_witness :
  exists c zoneData (st1 : @State provider) item rest resp,
    Some requestA = Some c /\
    @GetZone provider part_000 (ResolvedZone c) (@config provider)
      (@start provider [ok zone_body; ok "{}"])
    = (Val (zoneData, None), st1) /\
    Items zoneData = item :: rest /\
    sent (@mkState provider [] [searched part_000; createdA part_000])
    = sent st1 ++ [create_request "secret" (Item_ID item) (payload part_000 c)] /\
    fst (@Do provider
           (create_request "secret" (Item_ID item) (payload part_000 c))
           (world st1))
    = Responded resp /\
    StatusCode resp < 400.
Proof.
  exact (@Present_nil_means_created provider part_000 (Some requestA)
           (@start provider [ok zone_body; ok "{}"])
           (@mkState provider [] [searched part_000; createdA part_000])
           eq_refl).
Defined.

Lemma Present_wraps_failures_witness :
  fst (@Present provider main_go (Some requestA)
         (@start provider [ok zone_body; Failed None timeout]))
  = Val (Some (wrapError ("failed to send request: " ++ Error_msg timeout)
                 timeout)) /\
  fst (@Present provider part_000 (Some requestA)
         (@start provider [ok zone_body; cut_short "{}"]))
  = Val (Some (wrapError ("failed to read response: " ++ Error_msg unexpected_EOF)
                 unexpected_EOF)).
Proof.
  split.
  - destruct (@Present_wraps_failures provider main_go requestA
                (@start provider [ok zone_body; Failed None timeout])
                (after_search main_go [Failed None timeout])
                (zone_of [www; tok1; tok2])
                (mkItem 42 "example.com" [www; tok1; tok2]) []
                ltac:(discriminate) eq_refl eq_refl) as (_ & Hsend & _).
    exact (Hsend None timeout eq_refl eq_refl).
  - destruct (@Present_wraps_failures provider part_000 requestA
                (@start provider [ok zone_body; cut_short "{}"])
                (after_search part_000 [cut_short "{}"])
                (zone_of [www; tok1; tok2])
                (mkItem 42 "example.com" [www; tok1; tok2]) []
                ltac:(discriminate) eq_refl eq_refl) as (_ & _ & Hread).
    exact (Hread {| StatusCode := 200; ReadAll := ("{}", Some unexpected_EOF) |}
             "{}" unexpected_EOF eq_refl eq_refl eq_refl).
Defined.

(** Scenario C, with the DELETE answered by status 500: CleanUp returns
    nil all the same. *)
Lemma CleanUp_deletes_and_ignores_status_witness :
  sent (snd (@CleanUp provider part_000 (Some requestC)
               (@start provider [ok zone_body; internal_error])))
  = [searched part_000; delete_request "secret" 42 102] /\
  fst (@CleanUp provider part_000 (Some requestC)
         (@start provider [ok zone_body; internal_error]))
  = Val None.
Proof.
  assert (Hb : forall r', In r' [www; tok1] ->
                 ~ (Record_Type r' = 3 /\ Record_Name r' = hostname_of requestC
                    /\ Record_Value r' = Key requestC)).
  { intros r [<- | [<- | []]] (_ & _ & Hv); discriminate Hv. }
  destruct (@CleanUp_deletes_and_ignores_status provider part_000 requestC
              (@start provider [ok zone_body; internal_error])
              (after_search part_000 [internal_error])
              (zone_of [www; tok1; tok2])
              (mkItem 42 "example.com" [www; tok1; tok2]) []
              [www; tok1] [] tok2
              ltac:(discriminate) eq_refl eq_refl eq_refl Hb
              eq_refl eq_refl eq_refl ltac:(discriminate) eq_refl)
    as (Hsent & Hok & _).
  split; [exact Hsent|].
  exact (Hok {| StatusCode := 500; ReadAll := ("{Message:internal}", None) |}
           eq_refl).
Defined.

Lemma missing_API_key_panics_witness :
  @ApiKey keyless = "" /\
  @CleanUp keyless main_go (Some requestA) (@start keyless [ok zone_body])
  = (Panic "API_KEY must be specified", @start keyless [ok zone_body]) /\
  @Present keyless part_000 (Some requestA) (@start keyless [ok zone_body])
  = (Panic "API_KEY must be specified", @start keyless [ok zone_body]).
Proof.
  split; [reflexivity|].
  destruct (@missing_API_key_panics keyless main_go (Some requestA)
              (@start keyless [ok zone_body]) eq_refl) as (C & _).
  destruct (@missing_API_key_panics keyless part_000 (Some requestA)
              (@start keyless [ok zone_body]) eq_refl) as (_ & P).
  split; [exact C | apply P; discriminate].
Defined.

Lemma Part000_GetZone_nil_error_has_zone_witness :
  Items (zone_of [www; tok1; tok2]) <> [] /\ no_zone <> ZoneResponse_zero.
Proof.
  split; [|discriminate].
  exact (@Part000_GetZone_nil_error_has_zone provider "example.com."
           (mkConfig "secret") (@start provider [ok zone_body])
           (after_search part_000 []) (zone_of [www; tok1; tok2]) None
           eq_refl).
Defined.

Lemma Part000_entry_points_do_not_panic_witness :
  (exists err,
     fst (@Part000.Present provider (Some requestA) (@start provider []))
     = Val err) /\
  (exists err,
     fst (@Part000.CleanUp provider (Some requestA)
            (@start provider [ok "zone:none"]))
     = Val err).
Proof.
  split.
  - exact (proj1 (@Part000_entry_points_do_not_panic provider requestA
                    (@start provider [])
                    ltac:(discriminate) ltac:(discriminate))).
  - exact (proj2 (@Part000_entry_points_do_not_panic provider requestA
                    (@start provider [ok "zone:none"])
                    ltac:(discriminate) ltac:(discriminate))).
Defined.


